(** * simple-memory: the session/memory repository of [main.py]

    A shallow embedding of the two process-wide stores ([sessions],
    [memories]), the helpers that read and write them and the eight tool
    handlers, followed by the properties of the repository.

    Conventions of the embedding.
    - A Python [str] is a [string]; the character functions ([isspace],
      [lower], case-insensitive matching) are written for the code points
      U+0000..U+00FF, which is what [ascii] holds.
    - A Python [dict] is an association list in insertion order without
      repeated keys: assignment to a present key keeps its position,
      assignment to an absent key appends, [del] of an absent key raises
      [KeyError].
    - [generate_id()] and [get_current_time()] read the environment
      ([uuid.uuid4], [datetime.now]); the values they return during a call
      are arguments of the handler that makes the call.
    - Arguments arrive as [arguments.get(key)]: [None] when the key is
      absent, hence [option string]; [tags] is a list of strings as the
      input schema declares it.
    - A handler is split in two: the part that reads and writes the stores
      and returns a [Reply] holding every datum its message interpolates,
      and [render], which lays the reply out as the text blocks of the
      source. An exception leaving a handler is the reply [Raised]. *)

From Stdlib Require Import List String Ascii Bool Arith NArith Lia.
From Stdlib Require Import Decimal DecimalString.
From Stdlib Require Import Permutation Sorted.
Import ListNotations.

Local Open Scope string_scope.
Local Open Scope list_scope.
Local Open Scope nat_scope.

(** ** Python strings *)

Module PyStr.

(** [str.isspace] of one character, for code points below 256. *)
Definition isspace (c : ascii) : bool :=
  let n := nat_of_ascii c in
  ((9 <=? n) && (n <=? 13)) || ((28 <=? n) && (n <=? 32))
  || (n =? 133) || (n =? 160).

(** [str.lower] of one character, for code points below 256: the ASCII
    capitals and the Latin-1 capitals (U+00C0..U+00DE but the sign U+00D7)
    move up by 32. *)
Definition lower_char (c : ascii) : ascii :=
  let n := nat_of_ascii c in
  if ((65 <=? n) && (n <=? 90))
     || ((192 <=? n) && (n <=? 222) && negb (n =? 215))
  then ascii_of_nat (n + 32) else c.

Fixpoint lower (s : string) : string :=
  match s with
  | EmptyString => EmptyString
  | String c s' => String (lower_char c) (lower s')
  end.

(** [s.lstrip()] *)
Fixpoint lstrip (s : string) : string :=
  match s with
  | EmptyString => EmptyString
  | String c s' => if isspace c then lstrip s' else s
  end.

(** [s.rstrip()]: a character is dropped when it is white and everything
    after it has been dropped. *)
Fixpoint rstrip (s : string) : string :=
  match s with
  | EmptyString => EmptyString
  | String c s' =>
      match rstrip s' with
      | EmptyString => if isspace c then EmptyString else String c EmptyString
      | r => String c r
      end
  end.

(** [s.strip()] *)
Definition strip (s : string) : string := rstrip (lstrip s).

(** Truth value of a string: [bool(s)], false for the empty one only. *)
Definition truthy (s : string) : bool :=
  match s with EmptyString => false | _ => true end.

(** [sub in s] *)
Fixpoint contains (sub s : string) : bool :=
  prefix sub s
  || match s with
     | EmptyString => false
     | String _ s' => contains sub s'
     end.

(** [sep.join(l)] *)
Definition join (sep : string) (l : list string) : string := concat sep l.

(** Every character of [s] is white. *)
Fixpoint all_space (s : string) : bool :=
  match s with
  | EmptyString => true
  | String c s' => isspace c && all_space s'
  end.

End PyStr.

(** ** The two calls into [re]

    [re.compile(re.escape(query), re.IGNORECASE)] matches the literal text
    of [query] with letter case ignored, and [pattern.sub(repl, s)]
    replaces the leftmost non-overlapping matches, scanning left to right.
    [repl] is a template: [sub] compiles it before it searches, and a
    backslash in it starts an escape. The pattern has no group but the
    whole match. *)

Module Re.

(** One piece of a compiled template: literal text, or the whole match
    (group 0, written [\g<0>]). *)
Inductive part :=
| Lit (s : string)
| Group0.

Definition is_digit (c : ascii) : bool :=
  let n := nat_of_ascii c in (48 <=? n) && (n <=? 57).

Definition is_octdigit (c : ascii) : bool :=
  let n := nat_of_ascii c in (48 <=? n) && (n <=? 55).

Definition is_ascii_letter (c : ascii) : bool :=
  let n := nat_of_ascii c in
  ((65 <=? n) && (n <=? 90)) || ((97 <=? n) && (n <=? 122)).

Definition digit_val (c : ascii) : nat := nat_of_ascii c - 48.

Definition chr (n : nat) : string := String (ascii_of_nat n) EmptyString.

(** The text before the first [">"] and its length, when there is one. *)
Fixpoint until_gt (s : string) : option string :=
  match s with
  | EmptyString => None
  | String c s' =>
      if Ascii.eqb c ">" then Some EmptyString
      else option_map (String c) (until_gt s')
  end.

Fixpoint all_zero (s : string) : bool :=
  match s with
  | EmptyString => true
  | String c s' => Ascii.eqb c "0" && all_zero s'
  end.

(** The escape whose text, after the backslash, starts [s]: the piece it
    denotes and how many characters of [s] it takes; [None] when compiling
    the template raises. The cases are those of the template parser:
    [\g<name>], where only group 0 exists and its name is a run of the
    digit 0 (Python 3.12; earlier versions also read a sign, blanks or
    underscores in the number, with a warning); [\0] with up to two more octal
    digits; three octal digits; one or two digits, a group that does not
    exist; the escapes [\a \b \f \n \r \t \v] and the doubled backslash;
    another ASCII letter, an error; anything else, left as it stands. *)
Definition escape (s : string) : option (part * nat) :=
  match s with
  | EmptyString => None
  | String c r =>
      if Ascii.eqb c "g" then
        match r with
        | String "<" r' =>
            match until_gt r' with
            | Some name =>
                if PyStr.truthy name && all_zero name
                then Some (Group0, 3 + String.length name)
                else None
            | None => None
            end
        | _ => None
        end
      else if Ascii.eqb c "0" then
        match r with
        | String d1 (String d2 _) =>
            if is_octdigit d1 && is_octdigit d2
            then Some (Lit (chr (8 * digit_val d1 + digit_val d2)), 3)
            else if is_octdigit d1 then Some (Lit (chr (digit_val d1)), 2)
            else Some (Lit (chr 0), 1)
        | String d1 EmptyString =>
            if is_octdigit d1 then Some (Lit (chr (digit_val d1)), 2)
            else Some (Lit (chr 0), 1)
        | EmptyString => Some (Lit (chr 0), 1)
        end
      else if is_digit c then
        match r with
        | String d2 (String d3 _) =>
            if is_octdigit c && is_octdigit d2 && is_octdigit d3 then
              let v := 64 * digit_val c + 8 * digit_val d2 + digit_val d3 in
              if v <=? 255 then Some (Lit (chr v), 3) else None
            else None
        | _ => None
        end
      else if Ascii.eqb c "a" then Some (Lit (chr 7), 1)
      else if Ascii.eqb c "b" then Some (Lit (chr 8), 1)
      else if Ascii.eqb c "f" then Some (Lit (chr 12), 1)
      else if Ascii.eqb c "n" then Some (Lit (chr 10), 1)
      else if Ascii.eqb c "r" then Some (Lit (chr 13), 1)
      else if Ascii.eqb c "t" then Some (Lit (chr 9), 1)
      else if Ascii.eqb c "v" then Some (Lit (chr 11), 1)
      else if Ascii.eqb c "\" then Some (Lit "\", 1)
      else if is_ascii_letter c then None
      else Some (Lit (String "\" (String c EmptyString)), 1)
  end.

(** Compiling the template [s]; [skip] counts the characters still owed to
    the escape just read. *)
Fixpoint parse_template (skip : nat) (s : string) : option (list part) :=
  match s with
  | EmptyString => Some []
  | String c s' =>
      match skip with
      | S k => parse_template k s'
      | O =>
          if Ascii.eqb c "\" then
            match escape s' with
            | Some (p, n) => option_map (cons p) (parse_template n s')
            | None => None
            end
          else
            option_map (cons (Lit (String c EmptyString)))
                       (parse_template 0 s')
      end
  end.

(** The replacement text of one match. *)
Fixpoint expand (t : list part) (matched : string) : string :=
  match t with
  | [] => EmptyString
  | Lit s :: t' => (s ++ expand t' matched)%string
  | Group0 :: t' => (matched ++ expand t' matched)%string
  end.

(** [q] matches at the start of [s], letter case ignored. *)
Fixpoint match_here (q s : string) : bool :=
  match q, s with
  | EmptyString, _ => true
  | String a q', String b s' =>
      Ascii.eqb (PyStr.lower_char a) (PyStr.lower_char b) && match_here q' s'
  | String _ _, EmptyString => false
  end.

(** The first [n] characters of [s]. *)
Definition take (n : nat) (s : string) : string := substring 0 n s.

(** The scan of [sub] for a non-empty literal [q]; [skip] counts the
    characters of the current match still to pass over. *)
Fixpoint replace_all (q : string) (t : list part) (skip : nat) (s : string)
  : string :=
  match s with
  | EmptyString => EmptyString
  | String c s' =>
      match skip with
      | S k => replace_all q t k s'
      | O =>
          if match_here q s
          then (expand t (take (String.length q) s)
                ++ replace_all q t (String.length q - 1) s')%string
          else String c (replace_all q t 0 s')
      end
  end.

(** [re.compile(re.escape(q), re.IGNORECASE).sub(repl, s)] for a
    non-empty [q]; [None] when the template does not compile. *)
Definition sub_escaped_ignorecase (q repl s : string) : option string :=
  match parse_template 0 repl with
  | Some t => Some (replace_all q t 0 s)
  | None => None
  end.

End Re.

(** ** Python dictionaries *)

Module PyDict.
Section Dict.
Context {V : Type}.

Definition dict := list (string * V).

Definition keys (d : dict) : list string := map fst d.

(** [d.values()], in insertion order *)
Definition values (d : dict) : list V := map snd d.

(** [k in d] *)
Fixpoint mem (k : string) (d : dict) : bool :=
  match d with
  | [] => false
  | (k', _) :: d' => String.eqb k k' || mem k d'
  end.

(** [d.get(k)] *)
Fixpoint get (k : string) (d : dict) : option V :=
  match d with
  | [] => None
  | (k', v) :: d' => if String.eqb k k' then Some v else get k d'
  end.

(** [d[k] = v]: a present key keeps its place, a new one goes last. *)
Fixpoint set (k : string) (v : V) (d : dict) : dict :=
  match d with
  | [] => [(k, v)]
  | (k', v') :: d' =>
      if String.eqb k k' then (k', v) :: d' else (k', v') :: set k v d'
  end.

(** [del d[k]]; [None] is [KeyError]. *)
Fixpoint del (k : string) (d : dict) : option dict :=
  match d with
  | [] => None
  | (k', v') :: d' =>
      if String.eqb k k' then Some d'
      else option_map (cons (k', v')) (del k d')
  end.

(** [for k in ks: del d[k]]: the dictionary as the loop leaves it, and
    the key whose deletion raised, if one did. *)
Fixpoint del_each (ks : list string) (d : dict) : dict * option string :=
  match ks with
  | [] => (d, None)
  | k :: ks' =>
      match del k d with
      | Some d' => del_each ks' d'
      | None => (d, Some k)
      end
  end.

(** The entries of [d] whose key is not [k]. *)
Definition without (k : string) (d : dict) : dict :=
  filter (fun kv => negb (String.eqb (fst kv) k)) d.

(** Every value of [d] is stored under the key [id_of] gives. *)
Definition keyed_by (id_of : V -> string) (d : dict) : Prop :=
  forall k v, In (k, v) d -> id_of v = k.

End Dict.
Arguments dict V : clear implicits.
End PyDict.

Import PyDict.

(** ** The stores *)

(** A value of [sessions]: [{id, name, created_at, memory_count}]. *)
Record Session := mkSession {
  s_id : string;
  s_name : string;
  s_created_at : string;
  s_memory_count : nat
}.

(** A value of [memories]: [{id, session_id, content, created_at, tags}]. *)
Record Memory := mkMemory {
  m_id : string;
  m_session_id : string;
  m_content : string;
  m_created_at : string;
  m_tags : list string
}.

(** The module-level state. *)
Record Store := mkStore {
  sessions : dict Session;
  memories : dict Memory
}.

Definition empty_store : Store := mkStore [] [].

(** What [generate_id()] and [get_current_time()] return during one
    call. *)
Record Env := mkEnv {
  new_id : string;
  now : string
}.

Definition session_exists (st : Store) (session_id : string) : bool :=
  mem session_id (sessions st).

Definition get_session_memories (st : Store) (session_id : string)
  : list Memory :=
  filter (fun memory => String.eqb (m_session_id memory) session_id)
         (values (memories st)).

(** [sessions[k]["memory_count"] = n] for a present [k]: the record is
    changed where it stands. *)
Fixpoint set_memory_count (k : string) (n : nat) (d : dict Session)
  : dict Session :=
  match d with
  | [] => []
  | (k', s) :: d' =>
      if String.eqb k k'
      then (k', mkSession (s_id s) (s_name s) (s_created_at s) n) :: d'
      else (k', s) :: set_memory_count k n d'
  end.

Definition update_session_memory_count (st : Store) (session_id : string)
  : Store :=
  if mem session_id (sessions st)
  then mkStore (set_memory_count session_id
                  (List.length (get_session_memories st session_id))
                  (sessions st))
               (memories st)
  else st.

(** ** [list.sort(key=lambda x: x["created_at"], reverse=True)]

    The sort is stable and [reverse=True] keeps it so: elements with equal
    keys stay in the order they had. *)

Section SortDesc.
Context {A : Type} (key : A -> string).

(** [x], which stood before every element of the sorted [l], goes in
    front of the first element whose key is not greater than its own. *)
Fixpoint insert_desc (x : A) (l : list A) : list A :=
  match l with
  | [] => [x]
  | y :: l' =>
      if String.ltb (key x) (key y) then y :: insert_desc x l'
      else x :: l
  end.

Definition sort_desc (l : list A) : list A := fold_right insert_desc [] l.

(** [b] does not come after [a] in descending order of the key. *)
Definition desc (a b : A) : Prop := String.leb (key b) (key a) = true.

End SortDesc.

(** [a] stands at an earlier position of [l] than [b]. *)
Definition before {A} (a b : A) (l : list A) : Prop :=
  exists i j, i < j /\ nth_error l i = Some a /\ nth_error l j = Some b.

(** ** Replies *)

(** The handler a message comes from; it chooses the heading of an error
    block. *)
Inductive Handler :=
| CreateSession | DeleteSession | AddMemory | GetMemories
| RemoveMemory | ClearSession | SearchMemories.

(** The error conditions the handlers report. *)
Inductive ErrorKind :=
| EmptyName                              (* Session name cannot be empty *)
| EmptySessionId                         (* Session ID is required *)
| EmptyContent                           (* Memory content cannot be empty *)
| EmptyQuery                             (* Search query cannot be empty *)
| EmptyId                                (* Memory ID is required *)
| SessionNotFound (session_id : string)  (* Session does not exist *)
| MemoryNotFound (memory_id : string).   (* Memory does not exist *)

(** Exceptions that can leave a handler. *)
Inductive Exn :=
| KeyError (key : string)
| TemplateError      (* [re.error], or [IndexError] for a group name *)
| ValueError (msg : string).

(** One block of a search result. *)
Record Hit := mkHit {
  hit_memory : Memory;
  hit_session_name : string;
  hit_content : string       (* [highlighted_content] *)
}.

Inductive Reply :=
| Error (h : Handler) (e : ErrorKind)
| SessionCreated (session_id name created_at : string)
| SessionList (l : list Session)
| SessionDeleted (session : Session) (session_id : string) (deleted : nat)
| MemoryAdded (memory_id session_name session_id created_at : string)
              (tags : list string) (memory_count : nat) (content : string)
| MemoryList (session_name session_id : string) (l : list Memory)
| MemoryRemoved (memory_id session_name session_id content : string)
| SessionCleared (session_name session_id : string) (removed : nat)
| SearchResults (query : string) (scope : option string)
                (tags_filter : list string) (hits : list Hit)
| Raised (e : Exn).

(** ** Arguments *)

(** [not a] for [a = arguments.get(key)]: the key is absent or its value
    is the empty string. *)
Definition missing (a : option string) : bool :=
  match a with
  | Some s => negb (PyStr.truthy s)
  | None => true
  end.

(** [not a or not a.strip()] *)
Definition blank (a : option string) : bool :=
  match a with
  | Some s => negb (PyStr.truthy s) || negb (PyStr.truthy (PyStr.strip s))
  | None => true
  end.

(** The string of an argument that is not [missing]. *)
Definition val (a : option string) : string :=
  match a with
  | Some s => s
  | None => EmptyString
  end.

(** [arguments.get("tags", [])] *)
Definition tags_or_default (a : option (list string)) : list string :=
  match a with
  | Some l => l
  | None => []
  end.

(** ** Handlers *)

Definition handle_create_session (st : Store) (name : option string)
  (env : Env) : Store * Reply :=
  if blank name then (st, Error CreateSession EmptyName)
  else
    let name := val name in
    let session_id := new_id env in
    let created_at := now env in
    (mkStore (set session_id
                (mkSession session_id (PyStr.strip name) created_at 0)
                (sessions st))
             (memories st),
     SessionCreated session_id (PyStr.strip name) created_at).

Definition handle_list_sessions (st : Store) : Store * Reply :=
  (st, SessionList (values (sessions st))).

Definition handle_delete_session (st : Store) (session_id : option string)
  : Store * Reply :=
  if missing session_id then (st, Error DeleteSession EmptySessionId)
  else
    let session_id := val session_id in
    if negb (session_exists st session_id)
    then (st, Error DeleteSession (SessionNotFound session_id))
    else
      match get session_id (sessions st) with
      | None => (st, Raised (KeyError session_id))
      | Some session =>
          let session_memories := get_session_memories st session_id in
          let memory_ids_to_delete := map m_id session_memories in
          match del_each memory_ids_to_delete (memories st) with
          | (mems, Some k) => (mkStore (sessions st) mems, Raised (KeyError k))
          | (mems, None) =>
              match del session_id (sessions st) with
              | None =>
                  (mkStore (sessions st) mems, Raised (KeyError session_id))
              | Some sess =>
                  (mkStore sess mems,
                   SessionDeleted session session_id
                     (List.length memory_ids_to_delete))
              end
          end
      end.

Definition handle_add_memory (st : Store) (session_id content : option string)
  (tags : option (list string)) (env : Env) : Store * Reply :=
  let tags := tags_or_default tags in
  if missing session_id then (st, Error AddMemory EmptySessionId)
  else if blank content then (st, Error AddMemory EmptyContent)
  else
    let session_id := val session_id in
    let content := val content in
    if negb (session_exists st session_id)
    then (st, Error AddMemory (SessionNotFound session_id))
    else
      let memory_id := new_id env in
      let created_at := now env in
      let st1 :=
        mkStore (sessions st)
                (set memory_id
                   (mkMemory memory_id session_id (PyStr.strip content)
                             created_at tags)
                   (memories st)) in
      let st2 := update_session_memory_count st1 session_id in
      match get session_id (sessions st2) with
      | None => (st2, Raised (KeyError session_id))
      | Some session =>
          (st2,
           MemoryAdded memory_id (s_name session) session_id created_at tags
                       (s_memory_count session) (PyStr.strip content))
      end.

Definition handle_get_memories (st : Store) (session_id : option string)
  : Store * Reply :=
  if missing session_id then (st, Error GetMemories EmptySessionId)
  else
    let session_id := val session_id in
    if negb (session_exists st session_id)
    then (st, Error GetMemories (SessionNotFound session_id))
    else
      let session_memories := get_session_memories st session_id in
      match get session_id (sessions st) with
      | None => (st, Raised (KeyError session_id))
      | Some session =>
          (st, MemoryList (s_name session) session_id
                 (sort_desc m_created_at session_memories))
      end.

Definition handle_remove_memory (st : Store) (memory_id : option string)
  : Store * Reply :=
  if missing memory_id then (st, Error RemoveMemory EmptyId)
  else
    let memory_id := val memory_id in
    if negb (mem memory_id (memories st))
    then (st, Error RemoveMemory (MemoryNotFound memory_id))
    else
      match get memory_id (memories st) with
      | None => (st, Raised (KeyError memory_id))
      | Some memory =>
          let session_id := m_session_id memory in
          let session_name :=
            match get session_id (sessions st) with
            | Some session => s_name session
            | None => "Unknown"
            end in
          match del memory_id (memories st) with
          | None => (st, Raised (KeyError memory_id))
          | Some mems =>
              let st1 := mkStore (sessions st) mems in
              let st2 :=
                if mem session_id (sessions st1)
                then update_session_memory_count st1 session_id
                else st1 in
              (st2, MemoryRemoved memory_id session_name session_id
                      (m_content memory))
          end
      end.

Definition handle_clear_session (st : Store) (session_id : option string)
  : Store * Reply :=
  if missing session_id then (st, Error ClearSession EmptySessionId)
  else
    let session_id := val session_id in
    if negb (session_exists st session_id)
    then (st, Error ClearSession (SessionNotFound session_id))
    else
      let session_memories := get_session_memories st session_id in
      let memory_count := List.length session_memories in
      match get session_id (sessions st) with
      | None => (st, Raised (KeyError session_id))
      | Some session =>
          let session_name := s_name session in
          let memory_ids_to_delete := map m_id session_memories in
          match del_each memory_ids_to_delete (memories st) with
          | (mems, Some k) => (mkStore (sessions st) mems, Raised (KeyError k))
          | (mems, None) =>
              (update_session_memory_count (mkStore (sessions st) mems)
                                           session_id,
               SessionCleared session_name session_id memory_count)
          end
      end.

(** *** Search *)

(** [any(tag in memory["tags"] for tag in tags_filter)] *)
Definition any_tag_in (tags_filter tags : list string) : bool :=
  existsb (fun tag => existsb (String.eqb tag) tags) tags_filter.

(** The test of the search loop for one memory. *)
Definition matches (query_lower : string) (tags_filter : list string)
  (memory : Memory) : bool :=
  let content_match :=
    PyStr.contains query_lower (PyStr.lower (m_content memory)) in
  let tag_match :=
    match tags_filter with
    | [] => true
    | _ :: _ => any_tag_in tags_filter (m_tags memory)
    end in
  content_match && tag_match.

(** [highlighted_content] of one result; [None] when [pattern.sub]
    raises. *)
Definition highlight (query query_lower content : string) : option string :=
  if PyStr.contains query_lower (PyStr.lower content)
  then Re.sub_escaped_ignorecase query ("**" ++ query ++ "**")%string content
  else Some content.

(** [sessions.get(memory["session_id"], {}).get("name", "Unknown")] *)
Definition session_name_of (st : Store) (memory : Memory) : string :=
  match get (m_session_id memory) (sessions st) with
  | Some session => s_name session
  | None => "Unknown"
  end.

(** The loop that builds the result blocks; it stops at the first
    exception. *)
Fixpoint hits_of (st : Store) (query query_lower : string)
  (l : list Memory) : option (list Hit) :=
  match l with
  | [] => Some []
  | memory :: l' =>
      match highlight query query_lower (m_content memory) with
      | None => None
      | Some highlighted_content =>
          option_map
            (cons (mkHit memory (session_name_of st memory)
                         highlighted_content))
            (hits_of st query query_lower l')
      end
  end.

(** The memories the search looks at: those of the session when
    [session_id] is a non-empty string, all of them otherwise; with the
    name of the scope. *)
Definition search_universe (st : Store) (session_id : option string)
  : Reply + (list Memory * option string) :=
  if negb (missing session_id) then
    let session_id := val session_id in
    if negb (session_exists st session_id)
    then inl (Error SearchMemories (SessionNotFound session_id))
    else
      match get session_id (sessions st) with
      | None => inl (Raised (KeyError session_id))
      | Some session =>
          inr (get_session_memories st session_id, Some (s_name session))
      end
  else inr (values (memories st), None).

Definition handle_search_memories (st : Store)
  (query session_id : option string) (tags : option (list string))
  : Store * Reply :=
  let tags_filter := tags_or_default tags in
  if blank query then (st, Error SearchMemories EmptyQuery)
  else
    let query := val query in
    match search_universe st session_id with
    | inl r => (st, r)
    | inr (search_memories, search_scope) =>
        let query_lower := PyStr.lower (PyStr.strip query) in
        let matching_memories :=
          sort_desc m_created_at
            (filter (matches query_lower tags_filter) search_memories) in
        match hits_of st query query_lower matching_memories with
        | None => (st, Raised TemplateError)
        | Some hits =>
            (st, SearchResults query search_scope tags_filter hits)
        end
    end.

(** ** Dispatch *)

(** The [arguments] mapping: each field is [arguments.get(key)]. *)
Record Arguments := mkArguments {
  arg_name : option string;
  arg_session_id : option string;
  arg_content : option string;
  arg_memory_id : option string;
  arg_query : option string;
  arg_tags : option (list string)
}.

Definition no_arguments : Arguments :=
  mkArguments None None None None None None.

Definition handle_call_tool (st : Store) (name : string)
  (arguments : Arguments) (env : Env) : Store * Reply :=
  if String.eqb name "create_session"
  then handle_create_session st (arg_name arguments) env
  else if String.eqb name "list_sessions"
  then handle_list_sessions st
  else if String.eqb name "delete_session"
  then handle_delete_session st (arg_session_id arguments)
  else if String.eqb name "add_memory"
  then handle_add_memory st (arg_session_id arguments)
         (arg_content arguments) (arg_tags arguments) env
  else if String.eqb name "get_memories"
  then handle_get_memories st (arg_session_id arguments)
  else if String.eqb name "remove_memory"
  then handle_remove_memory st (arg_memory_id arguments)
  else if String.eqb name "clear_session"
  then handle_clear_session st (arg_session_id arguments)
  else if String.eqb name "search_memories"
  then handle_search_memories st (arg_query arguments)
         (arg_session_id arguments) (arg_tags arguments)
  else (st, Raised (ValueError ("Unknown tool: " ++ name)%string)).

(** One request: the tool name, its arguments, and what the environment
    answers during the call. *)
Definition Request : Type := string * Arguments * Env.

Definition step (st : Store) (r : Request) : Store :=
  let '(name, arguments, env) := r in
  fst (handle_call_tool st name arguments env).

(** The store after a sequence of requests. *)
Definition run (st : Store) (rs : list Request) : Store :=
  fold_left step rs st.

(** ** The text blocks

    What each handler returns: the [text] of its [TextContent] blocks, in
    order. *)

Definition nl : string := String (ascii_of_nat 10) EmptyString.

(** The pieces of an f-string, put together. *)
Definition cat (l : list string) : string := concat EmptyString l.

(** [str(n)] *)
Definition str_of_nat (n : nat) : string :=
  NilZero.string_of_uint (Nat.to_uint n).

(** [enumerate(l, 1)] *)
Definition enumerate1 {A} (l : list A) : list (nat * A) :=
  combine (seq 1 (List.length l)) l.

Definition error_heading (h : Handler) : string :=
  match h with
  | CreateSession => "# Session Creation Error"
  | DeleteSession => "# Session Deletion Error"
  | AddMemory => "# Memory Addition Error"
  | GetMemories => "# Memory Retrieval Error"
  | RemoveMemory => "# Memory Removal Error"
  | ClearSession => "# Session Clear Error"
  | SearchMemories => "# Memory Search Error"
  end.

Definition error_text (h : Handler) (e : ErrorKind) : string :=
  match e with
  | EmptyName =>
      cat [error_heading h; nl; nl; "**Error:** Session name cannot be empty"]
  | EmptySessionId =>
      cat [error_heading h; nl; nl; "**Error:** Session ID is required"]
  | EmptyContent =>
      cat [error_heading h; nl; nl;
           "**Error:** Memory content cannot be empty"]
  | EmptyQuery =>
      cat [error_heading h; nl; nl; "**Error:** Search query cannot be empty"]
  | EmptyId =>
      cat [error_heading h; nl; nl; "**Error:** Memory ID is required"]
  | SessionNotFound session_id =>
      cat [error_heading h; nl; nl; "**Session ID:** "; session_id; nl;
           "**Error:** Session does not exist"]
  | MemoryNotFound memory_id =>
      cat [error_heading h; nl; nl; "**Memory ID:** "; memory_id; nl;
           "**Error:** Memory does not exist"]
  end.

Definition session_line (session : Session) : string :=
  cat ["- **"; s_name session; "** (ID: `"; s_id session; "`)"; nl;
       "  - Created: "; s_created_at session; nl;
       "  - Memories: "; str_of_nat (s_memory_count session)].

(** The [tags_text] of a block: the tags after [label], joined by commas,
    or nothing when there is no tag. *)
Definition tags_suffix (label : string) (tags : list string) : string :=
  match tags with
  | [] => EmptyString
  | _ :: _ => cat [" | "; label; ": "; PyStr.join ", " tags]
  end.

Definition memory_block (entry : nat * Memory) : string :=
  let '(i, memory) := entry in
  cat ["# Memory "; str_of_nat i; nl; nl;
       "**ID:** "; m_id memory; nl;
       "**Created:** "; m_created_at memory;
       tags_suffix "Tags" (m_tags memory); nl; nl;
       m_content memory].

Definition hit_block (entry : nat * Hit) : string :=
  let '(i, hit) := entry in
  let memory := hit_memory hit in
  cat ["# Result "; str_of_nat i; nl; nl;
       "**Memory ID:** "; m_id memory; nl;
       "**Session:** "; hit_session_name hit;
       " ("; m_session_id memory; ")"; nl;
       "**Created:** "; m_created_at memory;
       tags_suffix "Tags" (m_tags memory); nl; nl;
       hit_content hit].

(** The blocks of a reply; [None] when the handler raised. *)
Definition render (r : Reply) : option (list string) :=
  match r with
  | Error h e => Some [error_text h e]
  | SessionCreated session_id name created_at =>
      Some [cat ["# Session Created"; nl; nl;
                 "**Session ID:** "; session_id; nl;
                 "**Name:** "; name; nl;
                 "**Created:** "; created_at; nl;
                 "**Memory Count:** 0"];
            cat ["# Session Details"; nl; nl;
                 "Successfully created session '"; name;
                 "' with ID: `"; session_id; "`"]]
  | SessionList [] =>
      Some [cat ["# Sessions"; nl; nl; "**Total Sessions:** 0"; nl; nl;
                 "No sessions have been created yet."]]
  | SessionList l =>
      Some [cat ["# Sessions"; nl; nl;
                 "**Total Sessions:** "; str_of_nat (List.length l); nl; nl;
                 PyStr.join (nl ++ nl) (map session_line l)]]
  | SessionDeleted session session_id deleted =>
      Some [cat ["# Session Deleted"; nl; nl;
                 "**Session:** "; s_name session; nl;
                 "**Session ID:** "; session_id; nl;
                 "**Memories Deleted:** "; str_of_nat deleted; nl;
                 "**Status:** Successfully deleted"]]
  | MemoryAdded memory_id session_name session_id created_at tags
                memory_count content =>
      let tags_text :=
        match tags with
        | [] => "**Tags:** None"
        | _ :: _ => cat ["**Tags:** "; PyStr.join ", " tags]
        end in
      Some [cat ["# Memory Added"; nl; nl;
                 "**Memory ID:** "; memory_id; nl;
                 "**Session:** "; session_name; " ("; session_id; ")"; nl;
                 "**Created:** "; created_at; nl;
                 tags_text; nl;
                 "**Memory Count:** "; str_of_nat memory_count];
            cat ["# Memory Content"; nl; nl; content]]
  | MemoryList session_name session_id [] =>
      Some [cat ["# Memories from '"; session_name; "'"; nl; nl;
                 "**Session ID:** "; session_id; nl;
                 "**Memory Count:** 0"; nl; nl;
                 "No memories found in this session."]]
  | MemoryList session_name session_id l =>
      Some (cat ["# Memories from '"; session_name; "'"; nl; nl;
                 "**Session ID:** "; session_id; nl;
                 "**Memory Count:** "; str_of_nat (List.length l)]
            :: map memory_block (enumerate1 l))
  | MemoryRemoved memory_id session_name session_id content =>
      Some [cat ["# Memory Removed"; nl; nl;
                 "**Memory ID:** "; memory_id; nl;
                 "**Session:** "; session_name; " ("; session_id; ")"; nl;
                 "**Content:** "; Re.take 100 content;
                 (if 100 <? String.length content then "..."
                  else EmptyString); nl;
                 "**Status:** Successfully removed"]]
  | SessionCleared session_name session_id removed =>
      Some [cat ["# Session Cleared"; nl; nl;
                 "**Session:** "; session_name; nl;
                 "**Session ID:** "; session_id; nl;
                 "**Memories Removed:** "; str_of_nat removed; nl;
                 "**Status:** Session cleared but preserved"]]
  | SearchResults query scope tags_filter hits =>
      let search_scope :=
        match scope with
        | Some session_name => cat ["session '"; session_name; "'"]
        | None => "all sessions"
        end in
      let head :=
        cat ["# Search Results"; nl; nl;
             "**Query:** "; query; nl;
             "**Scope:** "; search_scope;
             tags_suffix "Tags filter" tags_filter; nl;
             "**Results:** "; str_of_nat (List.length hits)] in
      match hits with
      | [] =>
          Some [cat [head; nl; nl;
                     "No memories found matching your search criteria."]]
      | _ :: _ => Some (head :: map hit_block (enumerate1 hits))
      end
  | Raised _ => None
  end.

(** The handler of a tool call as the server sees it: the store it
    leaves and the blocks it returns. *)
Definition call_tool (st : Store) (name : string) (arguments : Arguments)
  (env : Env) : Store * option (list string) :=
  let '(st', reply) := handle_call_tool st name arguments env in
  (st', render reply).

(** ** Well-formed stores *)

(** What the dictionaries are by construction: no key twice, and every
    record under the key its [id] field holds. *)
Record wf (st : Store) : Prop := mkWf {
  wf_sessions_nodup : NoDup (keys (sessions st));
  wf_memories_nodup : NoDup (keys (memories st));
  wf_sessions_keyed : keyed_by s_id (sessions st);
  wf_memories_keyed : keyed_by m_id (memories st)
}.

(** The entries of [memories] that do not belong to [session_id]. *)
Definition drop_session (session_id : string) (d : dict Memory)
  : dict Memory :=
  filter (fun kv => negb (String.eqb (m_session_id (snd kv)) session_id)) d.

(** ** Invariants of the stores *)

(** Every memory refers to a session that is in the store. *)
Definition no_orphans (st : Store) : Prop :=
  forall m, In m (values (memories st)) ->
            session_exists st (m_session_id m) = true.

(** Each session's [memory_count] is the number of memories that refer to
    its key. *)
Definition counts_ok (st : Store) : Prop :=
  forall k s, get k (sessions st) = Some s ->
              s_memory_count s = List.length (get_session_memories st k).

(** The identifier the generator hands out to a call that makes a
    session is not a key of [sessions], and the one it hands out to a call
    that makes a memory is not a key of [memories]. *)
Definition fresh (st : Store) (r : Request) : bool :=
  let '(name, _, env) := r in
  if String.eqb name "create_session"
  then negb (mem (new_id env) (sessions st))
  else if String.eqb name "add_memory"
  then negb (mem (new_id env) (memories st))
  else true.

(** [fresh] at every request of a run. *)
Fixpoint fresh_run (st : Store) (rs : list Request) : bool :=
  match rs with
  | [] => true
  | r :: rs' => fresh st r && fresh_run (step st r) rs'
  end.

(** ** What the specification asks for *)

(** The display the specification describes: every occurrence of the
    literal query in the content, letter case ignored, found from left to
    right without overlap, replaced by the query between emphasis
    markers. *)
Definition emphasized (query content : string) : string :=
  Re.replace_all query [Re.Lit ("**" ++ query ++ "**")%string] 0 content.

Fixpoint has_backslash (s : string) : bool :=
  match s with
  | EmptyString => false
  | String c s' => Ascii.eqb c "\" || has_backslash s'
  end.

(** The order the specification asks of [get_memories] among memories of
    one session that carry the same creation time: the one stored later
    comes first. *)
Definition later_first_on_ties (st : Store) (session_id : string) : Prop :=
  forall name l a b,
    handle_get_memories st (Some session_id)
    = (st, MemoryList name session_id l) ->
    before a b (get_session_memories st session_id) ->
    m_created_at a = m_created_at b ->
    before b a l.

(** ** Sessions of requests *)

(** The calls of [example.py]. *)

Definition create_session_req (name id t : string) : Request :=
  ("create_session",
   mkArguments (Some name) None None None None None, mkEnv id t).

Definition add_memory_req (session_id content : string) (tags : list string)
  (id t : string) : Request :=
  ("add_memory",
   mkArguments None (Some session_id) (Some content) None None (Some tags),
   mkEnv id t).

Definition remove_memory_req (memory_id id t : string) : Request :=
  ("remove_memory",
   mkArguments None None None (Some memory_id) None None, mkEnv id t).

Definition clear_session_req (session_id id t : string) : Request :=
  ("clear_session",
   mkArguments None (Some session_id) None None None None, mkEnv id t).

Definition delete_session_req (session_id id t : string) : Request :=
  ("delete_session",
   mkArguments None (Some session_id) None None None None, mkEnv id t).

(** Three sessions, some memories, an [add_memory] to a session that
    does not exist, then one removal, one clearing and one deletion. *)
Definition workflow : list Request :=
  [ create_session_req "project_ideas" "s1" "2024-05-01T10:00:00.000001";
    create_session_req "  meeting_notes " "s2" "2024-05-01T10:00:00.000002";
    create_session_req "personal_tasks" "s3" "2024-05-01T10:00:00.000003";
    add_memory_req "s1" "Build a drawing tutorial app with step-by-step guides"
      ["app"; "tutorial"; "drawing"] "m1" "2024-05-01T10:00:01.000000";
    add_memory_req "s1" "Create a markdown blog generator with themes"
      ["web"; "blog"; "generator"] "m2" "2024-05-01T10:00:02.000000";
    add_memory_req "s2" "Discussed Q1 objectives and team restructuring"
      [] "m3" "2024-05-01T10:00:03.000000";
    add_memory_req "s3" " water the plants " ["home"] "m4"
      "2024-05-01T10:00:04.000000";
    add_memory_req "s9" "nowhere" [] "m5" "2024-05-01T10:00:05.000000";
    remove_memory_req "m2" "u1" "2024-05-01T10:00:06.000000";
    clear_session_req "s2" "u2" "2024-05-01T10:00:07.000000";
    delete_session_req "s3" "u3" "2024-05-01T10:00:08.000000";
    add_memory_req "s1" "Sketch the app icon" ["app"] "m6"
      "2024-05-01T10:00:09.000000" ].

(** Two memories added to one session within the same clock reading. *)
Definition tie_requests : list Request :=
  [ create_session_req "notes" "s1" "2024-05-01T10:00:00.000001";
    add_memory_req "s1" "A" [] "m1" "2024-05-01T10:00:01.000000";
    add_memory_req "s1" "B" [] "m2" "2024-05-01T10:00:01.000000";
    add_memory_req "s1" "C" [] "m3" "2024-05-01T10:00:02.000000" ].

(** Stored paths, as memories. *)
Definition path_requests : list Request :=
  [ create_session_req "notes" "s1" "2024-05-01T10:00:00.000001";
    add_memory_req "s1" "logs are in C:\Users\bob" [] "m1"
      "2024-05-01T10:00:01.000000";
    add_memory_req "s1" "scratch files go to C:\temp" ["disk"] "m2"
      "2024-05-01T10:00:02.000000" ].

(** ** The tool catalogue

    [handle_list_tools]: the tools the server announces, each with the
    JSON schema of its arguments. *)

(** One entry of [properties] in an input schema. *)
Record Property := mkProperty {
  p_name : string;
  p_type : string;
  p_items : option string;        (* [items.type] of an array *)
  p_description : string;
  p_default : option (list string)
}.

(** [Tool(name=..., description=..., inputSchema=...)]; [t_required] is
    [None] where the schema has no [required] entry. *)
Record Tool := mkTool {
  t_name : string;
  t_description : string;
  t_properties : list Property;
  t_required : option (list string)
}.

Definition string_property (name description : string) : Property :=
  mkProperty name "string" None description None.

Definition tags_property (description : string) : Property :=
  mkProperty "tags" "array" (Some "string") description (Some []).

Definition handle_list_tools : list Tool :=
  [ mkTool "create_session" "Create a new memory session with a given name"
      [string_property "name" "Name for the new session"]
      (Some ["name"]);
    mkTool "list_sessions" "List all available memory sessions" [] None;
    mkTool "delete_session" "Delete a session and all its memories"
      [string_property "session_id" "ID of the session to delete"]
      (Some ["session_id"]);
    mkTool "add_memory" "Add a memory item to a specific session"
      [string_property "session_id" "ID of the session to add memory to";
       string_property "content" "Content of the memory to store";
       tags_property "Optional tags for the memory"]
      (Some ["session_id"; "content"]);
    mkTool "get_memories" "Retrieve all memories from a specific session"
      [string_property "session_id" "ID of the session to get memories from"]
      (Some ["session_id"]);
    mkTool "remove_memory" "Remove a specific memory by its ID"
      [string_property "memory_id" "ID of the memory to remove"]
      (Some ["memory_id"]);
    mkTool "clear_session"
      "Remove all memories from a session (but keep the session)"
      [string_property "session_id" "ID of the session to clear"]
      (Some ["session_id"]);
    mkTool "search_memories"
      "Search memories by content across all sessions or within a specific session"
      [string_property "query" "Search query to match against memory content";
       string_property "session_id"
         "Optional: limit search to a specific session";
       tags_property "Optional: filter by tags"]
      (Some ["query"]) ].

(** The [required] list of a schema, empty where there is none. *)
Definition required_of (t : Tool) : list string :=
  match t_required t with
  | Some l => l
  | None => []
  end.

(** [key in arguments] *)
Definition has_key (key : string) (arguments : Arguments) : bool :=
  if String.eqb key "name" then
    match arg_name arguments with Some _ => true | None => false end
  else if String.eqb key "session_id" then
    match arg_session_id arguments with Some _ => true | None => false end
  else if String.eqb key "content" then
    match arg_content arguments with Some _ => true | None => false end
  else if String.eqb key "memory_id" then
    match arg_memory_id arguments with Some _ => true | None => false end
  else if String.eqb key "query" then
    match arg_query arguments with Some _ => true | None => false end
  else if String.eqb key "tags" then
    match arg_tags arguments with Some _ => true | None => false end
  else false.

(** [content[:100]] followed by the dots when the content is longer, as
    the removal message shows it. *)
Definition content_preview (content : string) : string :=
  append (Re.take 100 content)
         (if 100 <? String.length content then "..." else EmptyString).

(** A string as the handlers store it: not empty, and [strip] leaves it
    as it is. *)
Definition stripped (s : string) : Prop :=
  s <> EmptyString /\ PyStr.strip s = s.

(** Session names and memory contents are [stripped]. *)
Definition data_stripped (st : Store) : Prop :=
  (forall k s, In (k, s) (sessions st) -> stripped (s_name s))
  /\ (forall k m, In (k, m) (memories st) -> stripped (m_content m)).

(** * Properties *)

(** ** The library functions on examples *)

Example strip_ex : PyStr.strip "  a b  " = "a b".
Proof. reflexivity. Qed.
Example lower_ex : PyStr.lower "Build A" = "build a".
Proof. reflexivity. Qed.
Example contains_ex : PyStr.contains "app" "tutorial app" = true.
Proof. reflexivity. Qed.
Example re_sub_plain :
  Re.sub_escaped_ignorecase "app" "**app**" "App and apple"
  = Some "**app** and **app**le".
Proof. reflexivity. Qed.
Example re_sub_overlap :
  Re.sub_escaped_ignorecase "aa" "<aa>" "aaaaa" = Some "<aa><aa>a".
Proof. reflexivity. Qed.
Example re_sub_tab :
  Re.sub_escaped_ignorecase "C:\temp" "**C:\temp**" "see C:\temp"
  = Some ("see **C:" ++ Re.chr 9 ++ "emp**")%string.
Proof. reflexivity. Qed.
Example re_sub_bad_escape :
  Re.sub_escaped_ignorecase "C:\Users" "**C:\Users**" "in C:\Users" = None.
Proof. reflexivity. Qed.
Example re_sub_group0 :
  Re.sub_escaped_ignorecase "\g<0>" "**\g<0>**" "x\G<0>y"
  = Some "x**\G<0>**y".
Proof. reflexivity. Qed.
Example sort_desc_ex :
  sort_desc fst [("1", "a"); ("1", "b"); ("2", "c"); ("0", "d"); ("2", "e")]
  = [("2", "c"); ("2", "e"); ("1", "a"); ("1", "b"); ("0", "d")].
Proof. reflexivity. Qed.

Example render_created :
  snd (call_tool empty_store "create_session"
         (mkArguments (Some " ideas ") None None None None None)
         (mkEnv "s1" "2024-05-01T10:00:00"))
  = Some [ cat ["# Session Created"; nl; nl; "**Session ID:** s1"; nl;
                "**Name:** ideas"; nl; "**Created:** 2024-05-01T10:00:00"; nl;
                "**Memory Count:** 0"];
           cat ["# Session Details"; nl; nl;
                "Successfully created session 'ideas' with ID: `s1`"] ].
Proof. reflexivity. Qed.

Example render_unknown_tool :
  call_tool empty_store "rename_session" no_arguments
            (mkEnv "s1" "2024-05-01T10:00:00")
  = (empty_store, None).
Proof. reflexivity. Qed.

(** ** Dictionaries *)

Section DictFacts.
Context {V : Type}.
Implicit Types (d : dict V) (k : string) (v : V).

Lemma mem_In k d : mem k d = true <-> In k (keys d).
Proof.
  induction d as [|[k' v'] d IH]; simpl.
  - split; [discriminate | contradiction].
  - rewrite orb_true_iff, IH, String.eqb_eq. intuition congruence.
Qed.

Lemma mem_false_In k d : mem k d = false <-> ~ In k (keys d).
Proof.
  rewrite <- mem_In. destruct (mem k d); intuition congruence.
Qed.

Lemma mem_get k d : mem k d = match get k d with Some _ => true | None => false end.
Proof.
  induction d as [|[k' v'] d IH]; simpl; [reflexivity|].
  destruct (String.eqb k k'); simpl; auto.
Qed.

Lemma get_In k v d : get k d = Some v -> In (k, v) d.
Proof.
  induction d as [|[k' v'] d IH]; simpl; [discriminate|].
  destruct (String.eqb_spec k k') as [->|Hne]; intros H.
  - left. congruence.
  - right. auto.
Qed.

Lemma In_keys k v d : In (k, v) d -> In k (keys d).
Proof. intros H. apply (in_map fst) in H. exact H. Qed.

Lemma In_get k v d : NoDup (keys d) -> In (k, v) d -> get k d = Some v.
Proof.
  induction d as [|[k' v'] d IH]; simpl; [contradiction|].
  intros Hnd [Heq|Hin]; inversion Hnd as [|? ? Hnotin Hnd']; subst.
  - inversion Heq; subst. now rewrite String.eqb_refl.
  - destruct (String.eqb_spec k k') as [->|Hne]; auto.
    exfalso. apply Hnotin. eapply In_keys; eauto.
Qed.

Lemma set_fresh k v d : mem k d = false -> set k v d = d ++ [(k, v)].
Proof.
  induction d as [|[k' v'] d IH]; simpl; [reflexivity|].
  destruct (String.eqb k k'); simpl; [discriminate|].
  intros H. now rewrite IH.
Qed.

Lemma In_set k v d k' v' :
  In (k', v') (set k v d) -> (k' = k /\ v' = v) \/ In (k', v') d.
Proof.
  induction d as [|[k0 v0] d IH]; simpl.
  - intros [H|[]]. inversion H; auto.
  - destruct (String.eqb_spec k k0) as [->|Hne]; simpl.
    + intros [H|H]; [inversion H; auto | auto].
    + intros [H|H]; [auto | destruct (IH H); auto].
Qed.

Lemma keys_set k v d :
  keys (set k v d) = if mem k d then keys d else keys d ++ [k].
Proof.
  induction d as [|[k0 v0] d IH]; simpl; [reflexivity|].
  destruct (String.eqb_spec k k0) as [->|Hne]; simpl; [reflexivity|].
  rewrite IH. now destruct (mem k d).
Qed.

Lemma mem_set k v d k' :
  mem k' (set k v d) = String.eqb k' k || mem k' d.
Proof.
  induction d as [|[k0 v0] d IH]; simpl.
  - now rewrite orb_false_r.
  - destruct (String.eqb_spec k k0) as [->|Hne]; simpl.
    + destruct (String.eqb k' k0); reflexivity.
    + rewrite IH.
      destruct (String.eqb k' k0), (String.eqb k' k); reflexivity.
Qed.

Lemma NoDup_set k v d : NoDup (keys d) -> NoDup (keys (set k v d)).
Proof.
  intros Hnd. rewrite keys_set.
  destruct (mem k d) eqn:Hm; [assumption|].
  apply mem_false_In in Hm.
  apply NoDup_app; auto.
  - constructor; [intros [] | constructor].
  - intros x Hx [<-|[]]. contradiction.
Qed.

Lemma without_notin k d : ~ In k (keys d) -> without k d = d.
Proof.
  induction d as [|[k0 v0] d IH]; simpl; [reflexivity|].
  intros H. destruct (String.eqb_spec k0 k) as [->|Hne]; simpl.
  - exfalso. auto.
  - f_equal. apply IH. intros Hin. apply H. auto.
Qed.

Lemma del_without k d :
  NoDup (keys d) -> mem k d = true -> del k d = Some (without k d).
Proof.
  induction d as [|[k0 v0] d IH]; simpl; [discriminate|].
  intros Hnd Hm. inversion Hnd as [|? ? Hnotin Hnd']; subst.
  rewrite (String.eqb_sym k0 k).
  destruct (String.eqb_spec k k0) as [->|Hne]; simpl.
  - now rewrite without_notin.
  - simpl in Hm. rewrite IH by assumption. reflexivity.
Qed.

Lemma del_None k d : mem k d = false -> del k d = None.
Proof.
  induction d as [|[k0 v0] d IH]; simpl; [reflexivity|].
  destruct (String.eqb k k0); simpl; [discriminate|].
  intros H. now rewrite IH.
Qed.

Lemma del_each_cons_notin ks k v d :
  ~ In k ks ->
  del_each ks ((k, v) :: d)
  = ((k, v) :: fst (del_each ks d), snd (del_each ks d)).
Proof.
  revert d. induction ks as [|k0 ks IH]; intros d Hnotin; simpl.
  - reflexivity.
  - destruct (String.eqb_spec k0 k) as [->|Hne].
    + exfalso. apply Hnotin. now left.
    + destruct (del k0 d) as [d'|]; simpl.
      * apply IH. intros H. apply Hnotin. now right.
      * reflexivity.
Qed.

End DictFacts.

Section DictMoreFacts.
Context {V : Type}.
Implicit Types (d : dict V) (k : string) (v : V).

Lemma get_set k v d k' :
  get k' (set k v d) = if String.eqb k' k then Some v else get k' d.
Proof.
  induction d as [|[k0 v0] d IH]; simpl.
  - reflexivity.
  - destruct (String.eqb_spec k k0) as [->|Hne]; simpl.
    + destruct (String.eqb k' k0); reflexivity.
    + rewrite IH. destruct (String.eqb_spec k' k0) as [->|Hne'].
      * destruct (String.eqb_spec k0 k); [congruence | reflexivity].
      * reflexivity.
Qed.

Lemma get_without k d k' :
  get k' (without k d) = if String.eqb k' k then None else get k' d.
Proof.
  induction d as [|[k0 v0] d IH]; simpl.
  - now destruct (String.eqb k' k).
  - destruct (String.eqb_spec k0 k) as [->|Hne]; simpl.
    + rewrite IH. destruct (String.eqb k' k); reflexivity.
    + rewrite IH. destruct (String.eqb_spec k' k0) as [->|Hne'].
      * destruct (String.eqb_spec k0 k); [congruence | reflexivity].
      * reflexivity.
Qed.

Lemma keys_filter_incl (f : string * V -> bool) d x :
  In x (keys (filter f d)) -> In x (keys d).
Proof.
  unfold keys. rewrite !in_map_iff. intros [kv [<- H]].
  apply filter_In in H. exists kv. tauto.
Qed.

Lemma NoDup_keys_filter (f : string * V -> bool) d :
  NoDup (keys d) -> NoDup (keys (filter f d)).
Proof.
  induction d as [|[k0 v0] d IH]; simpl; [auto|].
  intros Hnd. inversion Hnd as [|? ? Hnotin Hnd']; subst.
  destruct (f (k0, v0)); simpl; auto.
  constructor; auto. intros H. apply Hnotin.
  eapply keys_filter_incl; eauto.
Qed.

Lemma values_filter_snd (q : V -> bool) d :
  values (filter (fun kv => q (snd kv)) d) = filter q (values d).
Proof.
  induction d as [|[k0 v0] d IH]; simpl; [reflexivity|].
  destruct (q v0); simpl; now rewrite IH.
Qed.

Lemma values_app d1 d2 : values (d1 ++ d2) = values d1 ++ values d2.
Proof. apply map_app. Qed.

Lemma In_values v d : In v (values d) <-> exists k, In (k, v) d.
Proof.
  unfold values. rewrite in_map_iff. split.
  - intros [[k v'] [<- H]]. eauto.
  - intros [k H]. exists (k, v). auto.
Qed.

Lemma keyed_by_keys id_of d :
  keyed_by id_of d -> map id_of (values d) = keys d.
Proof.
  induction d as [|[k0 v0] d IH]; simpl; [reflexivity|].
  intros H. rewrite (H k0 v0) by now left.
  f_equal. apply IH. intros k v Hin. apply H. now right.
Qed.

Lemma keyed_by_without id_of k d :
  keyed_by id_of d ->
  without k d = filter (fun kv => negb (String.eqb (id_of (snd kv)) k)) d.
Proof.
  intros H. apply filter_ext_in. intros [k0 v0] Hin. simpl.
  now rewrite (H _ _ Hin).
Qed.

(** Deleting, one by one, the keys of the values that satisfy [p] leaves
    the other entries, in their order, and does not raise. *)
Lemma del_each_selected id_of (p : V -> bool) d :
  NoDup (keys d) -> keyed_by id_of d ->
  del_each (map id_of (filter p (values d))) d
  = (filter (fun kv => negb (p (snd kv))) d, None).
Proof.
  induction d as [|[k0 v0] d IH]; simpl; [reflexivity|].
  intros Hnd Hk. inversion Hnd as [|? ? Hnotin Hnd']; subst.
  assert (Hk' : keyed_by id_of d).
  { intros k v Hin. apply Hk. now right. }
  assert (Hid : id_of v0 = k0) by (apply Hk; now left).
  destruct (p v0) eqn:Hp; simpl.
  - rewrite Hid, String.eqb_refl. now apply IH.
  - rewrite del_each_cons_notin.
    + now rewrite IH.
    + intros Hin. apply Hnotin. rewrite <- (keyed_by_keys id_of d Hk').
      apply in_map_iff in Hin. destruct Hin as [v [Hv Hin]].
      apply filter_In in Hin. apply in_map_iff. exists v. tauto.
Qed.

End DictMoreFacts.

Lemma get_set_memory_count k n d k' :
  get k' (set_memory_count k n d)
  = if String.eqb k' k
    then option_map
           (fun s => mkSession (s_id s) (s_name s) (s_created_at s) n)
           (get k d)
    else get k' d.
Proof.
  induction d as [|[k0 s0] d IH]; simpl.
  - now destruct (String.eqb k' k).
  - destruct (String.eqb_spec k k0) as [->|Hne]; simpl.
    + destruct (String.eqb k' k0); reflexivity.
    + rewrite IH. destruct (String.eqb_spec k' k0) as [->|Hne'].
      * destruct (String.eqb_spec k0 k); [congruence | reflexivity].
      * reflexivity.
Qed.

Lemma keys_set_memory_count k n d : keys (set_memory_count k n d) = keys d.
Proof.
  induction d as [|[k0 s0] d IH]; simpl; [reflexivity|].
  destruct (String.eqb k k0); simpl; [reflexivity | now rewrite IH].
Qed.

Lemma mem_set_memory_count k n d k' :
  mem k' (set_memory_count k n d) = mem k' d.
Proof.
  rewrite !mem_get, get_set_memory_count.
  destruct (String.eqb_spec k' k) as [->|]; [|reflexivity].
  now destruct (get k d).
Qed.

Lemma keyed_set_memory_count k n d :
  keyed_by s_id d -> keyed_by s_id (set_memory_count k n d).
Proof.
  induction d as [|[k0 s0] d IH]; simpl; [auto|].
  intros H.
  assert (H' : keyed_by s_id d) by (intros a b Hin; apply H; now right).
  destruct (String.eqb k k0); intros a b [Heq|Hin].
  - inversion Heq; subst. simpl. apply H. now left.
  - apply H. now right.
  - apply H. now left.
  - now apply IH.
Qed.

(** ** What each mutating handler does to a well-formed store *)

Lemma session_exists_get st k :
  session_exists st k = true <-> exists s, get k (sessions st) = Some s.
Proof.
  unfold session_exists. rewrite mem_get.
  destruct (get k (sessions st)); split; eauto; try discriminate.
  intros [s H]. discriminate.
Qed.

Lemma del_each_session st k :
  wf st ->
  del_each (map m_id (get_session_memories st k)) (memories st)
  = (drop_session k (memories st), None).
Proof.
  intros [_ Hnd _ Hk]. unfold get_session_memories, drop_session.
  exact (del_each_selected m_id
           (fun memory => String.eqb (m_session_id memory) k)
           (memories st) Hnd Hk).
Qed.

Lemma get_session_memories_drop ss d k :
  get_session_memories (mkStore ss (drop_session k d)) k = [].
Proof.
  unfold get_session_memories, drop_session. simpl.
  rewrite (values_filter_snd
             (fun m => negb (String.eqb (m_session_id m) k))).
  induction (values d) as [|m l IH]; simpl; [reflexivity|].
  destruct (String.eqb (m_session_id m) k) eqn:E; simpl; [assumption|].
  now rewrite E.
Qed.

Lemma get_session_memories_drop_other ss d k k' :
  k' <> k ->
  get_session_memories (mkStore ss (drop_session k d)) k'
  = get_session_memories (mkStore ss d) k'.
Proof.
  intros Hne. unfold get_session_memories, drop_session. simpl.
  rewrite (values_filter_snd
             (fun m => negb (String.eqb (m_session_id m) k))).
  induction (values d) as [|m l IH]; simpl; [reflexivity|].
  destruct (String.eqb_spec (m_session_id m) k) as [E|E]; simpl.
  - destruct (String.eqb_spec (m_session_id m) k'); [congruence | assumption].
  - now rewrite IH.
Qed.

Lemma create_session_cases st name env :
  (blank name = true
   /\ handle_create_session st name env = (st, Error CreateSession EmptyName))
  \/ (blank name = false
      /\ handle_create_session st name env
         = (mkStore (set (new_id env)
                       (mkSession (new_id env) (PyStr.strip (val name))
                                  (now env) 0)
                       (sessions st))
                    (memories st),
            SessionCreated (new_id env) (PyStr.strip (val name)) (now env))).
Proof.
  unfold handle_create_session. destruct (blank name); [left | right]; auto.
Qed.

Lemma delete_session_cases st a :
  wf st ->
  (exists e, handle_delete_session st a = (st, Error DeleteSession e))
  \/ (exists s,
         missing a = false /\ get (val a) (sessions st) = Some s
         /\ handle_delete_session st a
            = (mkStore (without (val a) (sessions st))
                       (drop_session (val a) (memories st)),
               SessionDeleted s (val a)
                 (List.length (get_session_memories st (val a))))).
Proof.
  intros Hwf. unfold handle_delete_session.
  destruct (missing a) eqn:Hm; [left; eauto|].
  destruct (session_exists st (val a)) eqn:He; simpl; [|left; eauto].
  right. destruct (proj1 (session_exists_get _ _) He) as [s Hs].
  exists s. rewrite Hs, del_each_session by assumption.
  rewrite del_without; [| apply Hwf | exact He].
  now rewrite length_map.
Qed.

Lemma add_memory_ok st a c tags env s :
  missing a = false -> blank c = false ->
  get (val a) (sessions st) = Some s ->
  let memory :=
    mkMemory (new_id env) (val a) (PyStr.strip (val c)) (now env)
             (tags_or_default tags) in
  let mems := set (new_id env) memory (memories st) in
  let n :=
    List.length (get_session_memories (mkStore (sessions st) mems) (val a)) in
  handle_add_memory st a c tags env
  = (mkStore (set_memory_count (val a) n (sessions st)) mems,
     MemoryAdded (new_id env) (s_name s) (val a) (now env)
       (tags_or_default tags) n (PyStr.strip (val c))).
Proof.
  intros Hm Hb Hs. unfold handle_add_memory. rewrite Hm, Hb.
  assert (He : mem (val a) (sessions st) = true) by now rewrite mem_get, Hs.
  unfold session_exists. rewrite He. simpl.
  unfold update_session_memory_count. simpl. rewrite He. simpl.
  rewrite get_set_memory_count, String.eqb_refl, Hs. reflexivity.
Qed.

Lemma add_memory_cases st a c tags env :
  (exists e, handle_add_memory st a c tags env = (st, Error AddMemory e))
  \/ (exists s,
         missing a = false /\ blank c = false
         /\ get (val a) (sessions st) = Some s
         /\ let memory :=
              mkMemory (new_id env) (val a) (PyStr.strip (val c)) (now env)
                       (tags_or_default tags) in
            let mems := set (new_id env) memory (memories st) in
            let n :=
              List.length
                (get_session_memories (mkStore (sessions st) mems) (val a)) in
            handle_add_memory st a c tags env
            = (mkStore (set_memory_count (val a) n (sessions st)) mems,
               MemoryAdded (new_id env) (s_name s) (val a) (now env)
                 (tags_or_default tags) n (PyStr.strip (val c)))).
Proof.
  unfold handle_add_memory.
  destruct (missing a) eqn:Hm; [left; eauto|].
  destruct (blank c) eqn:Hb; [left; eauto|].
  destruct (session_exists st (val a)) eqn:He; simpl; [|left; eauto].
  right. destruct (proj1 (session_exists_get _ _) He) as [s Hs].
  exists s. repeat split; auto.
  unfold handle_add_memory in *.
  pose proof (add_memory_ok st a c tags env s Hm Hb Hs) as H.
  unfold handle_add_memory in H. rewrite Hm, Hb, He in H. exact H.
Qed.

Lemma remove_memory_cases st a :
  wf st ->
  (exists e, handle_remove_memory st a = (st, Error RemoveMemory e))
  \/ (exists m,
         missing a = false /\ get (val a) (memories st) = Some m
         /\ let mems := without (val a) (memories st) in
            let st1 := mkStore (sessions st) mems in
            handle_remove_memory st a
            = (update_session_memory_count st1 (m_session_id m),
               MemoryRemoved (val a)
                 (match get (m_session_id m) (sessions st) with
                  | Some session => s_name session
                  | None => "Unknown"
                  end)
                 (m_session_id m) (m_content m))).
Proof.
  intros Hwf. unfold handle_remove_memory.
  destruct (missing a) eqn:Hm; [left; eauto|].
  destruct (mem (val a) (memories st)) eqn:He; simpl; [|left; eauto].
  right. pose proof He as He'. rewrite mem_get in He'.
  destruct (get (val a) (memories st)) as [m|] eqn:Hg; [|discriminate].
  exists m. repeat split; auto.
  rewrite del_without; [| apply Hwf | exact He]. simpl.
  unfold update_session_memory_count. simpl.
  destruct (mem (m_session_id m) (sessions st)); reflexivity.
Qed.

Lemma clear_session_cases st a :
  wf st ->
  (exists e, handle_clear_session st a = (st, Error ClearSession e))
  \/ (exists s,
         missing a = false /\ get (val a) (sessions st) = Some s
         /\ handle_clear_session st a
            = (mkStore (set_memory_count (val a) 0 (sessions st))
                       (drop_session (val a) (memories st)),
               SessionCleared (s_name s) (val a)
                 (List.length (get_session_memories st (val a))))).
Proof.
  intros Hwf. unfold handle_clear_session.
  destruct (missing a) eqn:Hm; [left; eauto|].
  destruct (session_exists st (val a)) eqn:He; simpl; [|left; eauto].
  right. destruct (proj1 (session_exists_get _ _) He) as [s Hs].
  exists s. rewrite Hs, del_each_session by assumption.
  unfold update_session_memory_count. simpl.
  unfold session_exists in He. rewrite He.
  now rewrite get_session_memories_drop.
Qed.

(** ** Every handler keeps the store well-formed *)

Lemma keyed_by_filter {V} (id_of : V -> string) f (d : dict V) :
  keyed_by id_of d -> keyed_by id_of (filter f d).
Proof.
  intros H k v Hin. apply filter_In in Hin. apply H. tauto.
Qed.

Lemma keyed_by_set {V} (id_of : V -> string) k v (d : dict V) :
  id_of v = k -> keyed_by id_of d -> keyed_by id_of (set k v d).
Proof.
  intros Hid H k' v' Hin. apply In_set in Hin.
  destruct Hin as [[-> ->]|Hin]; auto.
Qed.

Lemma wf_empty : wf empty_store.
Proof. split; simpl; try constructor; intros ? ? []. Qed.

Lemma wf_set_memory_count ss ms k n :
  wf (mkStore ss ms) -> wf (mkStore (set_memory_count k n ss) ms).
Proof.
  intros [H1 H2 H3 H4]. split; simpl in *; auto.
  - now rewrite keys_set_memory_count.
  - now apply keyed_set_memory_count.
Qed.

Lemma wf_update_session_memory_count st k :
  wf st -> wf (update_session_memory_count st k).
Proof.
  intros H. unfold update_session_memory_count.
  destruct (mem k (sessions st)); [|assumption].
  apply wf_set_memory_count. now destruct st.
Qed.

Lemma wf_drop_session ss ms k :
  wf (mkStore ss ms) -> wf (mkStore ss (drop_session k ms)).
Proof.
  intros [H1 H2 H3 H4]. split; simpl in *; auto.
  - now apply NoDup_keys_filter.
  - now apply keyed_by_filter.
Qed.

Lemma wf_without_memory ss ms k :
  wf (mkStore ss ms) -> wf (mkStore ss (without k ms)).
Proof.
  intros [H1 H2 H3 H4]. split; simpl in *; auto.
  - now apply NoDup_keys_filter.
  - now apply keyed_by_filter.
Qed.

Lemma wf_without_session ss ms k :
  wf (mkStore ss ms) -> wf (mkStore (without k ss) ms).
Proof.
  intros [H1 H2 H3 H4]. split; simpl in *; auto.
  - now apply NoDup_keys_filter.
  - now apply keyed_by_filter.
Qed.

Lemma handle_create_session_wf st name env :
  wf st -> wf (fst (handle_create_session st name env)).
Proof.
  intros Hwf.
  destruct (create_session_cases st name env) as [[_ ->]|[_ ->]]; simpl;
    [assumption|].
  destruct Hwf as [H1 H2 H3 H4]. split; simpl; auto.
  - now apply NoDup_set.
  - now apply keyed_by_set.
Qed.

Lemma handle_delete_session_wf st a :
  wf st -> wf (fst (handle_delete_session st a)).
Proof.
  intros Hwf.
  destruct (delete_session_cases st a Hwf) as [[e ->]|[s (_ & _ & ->)]];
    simpl; [assumption|].
  apply wf_without_session, wf_drop_session. now destruct st.
Qed.

Lemma handle_add_memory_wf st a c tags env :
  wf st -> wf (fst (handle_add_memory st a c tags env)).
Proof.
  intros Hwf.
  destruct (add_memory_cases st a c tags env) as [[e ->]|[s (_ & _ & _ & H)]];
    simpl; [assumption|].
  simpl in H. rewrite H. simpl.
  apply wf_set_memory_count.
  destruct Hwf as [H1 H2 H3 H4]. split; simpl; auto.
  - now apply NoDup_set.
  - now apply keyed_by_set.
Qed.

Lemma handle_remove_memory_wf st a :
  wf st -> wf (fst (handle_remove_memory st a)).
Proof.
  intros Hwf.
  destruct (remove_memory_cases st a Hwf) as [[e ->]|[m (_ & _ & H)]];
    simpl; [assumption|].
  simpl in H. rewrite H. simpl.
  apply wf_update_session_memory_count, wf_without_memory.
  now destruct st.
Qed.

Lemma handle_clear_session_wf st a :
  wf st -> wf (fst (handle_clear_session st a)).
Proof.
  intros Hwf.
  destruct (clear_session_cases st a Hwf) as [[e ->]|[s (_ & _ & ->)]];
    simpl; [assumption|].
  apply wf_set_memory_count, wf_drop_session. now destruct st.
Qed.

Lemma handle_search_memories_store st q a tags :
  fst (handle_search_memories st q a tags) = st.
Proof.
  unfold handle_search_memories.
  destruct (blank q); [reflexivity|].
  destruct (search_universe st a) as [r|[l scope]]; [reflexivity|].
  destruct (hits_of _ _ _ _); reflexivity.
Qed.

Lemma handle_get_memories_store st a :
  fst (handle_get_memories st a) = st.
Proof.
  unfold handle_get_memories.
  destruct (missing a); [reflexivity|].
  destruct (negb _); [reflexivity|].
  destruct (get _ _); reflexivity.
Qed.

(** On a well-formed store no [KeyError] leaves a handler: every key
    deleted or looked up has just been read from the same dictionary. *)
Lemma no_key_error st name arguments env k :
  wf st ->
  snd (handle_call_tool st name arguments env) <> Raised (KeyError k).
Proof.
  intros Hwf. unfold handle_call_tool.
  destruct (String.eqb name "create_session").
  { destruct (create_session_cases st (arg_name arguments) env)
      as [[_ ->]|[_ ->]]; discriminate. }
  destruct (String.eqb name "list_sessions"); [discriminate|].
  destruct (String.eqb name "delete_session").
  { destruct (delete_session_cases st (arg_session_id arguments) Hwf)
      as [[e ->]|[s (_ & _ & ->)]]; discriminate. }
  destruct (String.eqb name "add_memory").
  { destruct (add_memory_cases st (arg_session_id arguments)
                (arg_content arguments) (arg_tags arguments) env)
      as [[e ->]|[s (_ & _ & _ & H)]]; [discriminate|].
    simpl in H. rewrite H. discriminate. }
  destruct (String.eqb name "get_memories").
  { unfold handle_get_memories.
    destruct (missing _); [discriminate|].
    unfold session_exists. rewrite mem_get.
    destruct (get _ _); discriminate. }
  destruct (String.eqb name "remove_memory").
  { destruct (remove_memory_cases st (arg_memory_id arguments) Hwf)
      as [[e ->]|[m (_ & _ & H)]]; [discriminate|].
    simpl in H. rewrite H. discriminate. }
  destruct (String.eqb name "clear_session").
  { destruct (clear_session_cases st (arg_session_id arguments) Hwf)
      as [[e ->]|[s (_ & _ & ->)]]; discriminate. }
  destruct (String.eqb name "search_memories"); [|discriminate].
  unfold handle_search_memories.
  destruct (blank _); [discriminate|].
  unfold search_universe.
  destruct (missing _); simpl.
  - destruct (hits_of _ _ _ _); discriminate.
  - unfold session_exists. rewrite mem_get.
    destruct (get _ _); simpl; [|discriminate].
    destruct (hits_of _ _ _ _); discriminate.
Qed.

(** The handlers, as [handle_call_tool] reaches them. *)
Ltac by_tool name :=
  unfold handle_call_tool;
  repeat match goal with
         | |- context [if String.eqb name ?s then _ else _] =>
             destruct (String.eqb name s)
         end.

Lemma handle_call_tool_wf st name arguments env :
  wf st -> wf (fst (handle_call_tool st name arguments env)).
Proof.
  intros Hwf. by_tool name.
  - now apply handle_create_session_wf.
  - assumption.
  - now apply handle_delete_session_wf.
  - now apply handle_add_memory_wf.
  - now rewrite handle_get_memories_store.
  - now apply handle_remove_memory_wf.
  - now apply handle_clear_session_wf.
  - now rewrite handle_search_memories_store.
  - assumption.
Qed.

Lemma run_wf rs : forall st, wf st -> wf (run st rs).
Proof.
  induction rs as [|[[name arguments] env] rs IH]; intros st Hwf; simpl.
  - assumption.
  - apply IH. now apply handle_call_tool_wf.
Qed.

(** ** Referential integrity *)

Lemma In_values_filter {V} (f : string * V -> bool) (d : dict V) v :
  In v (values (filter f d)) -> In v (values d).
Proof.
  rewrite !In_values. intros [k H]. apply filter_In in H. exists k. tauto.
Qed.

Lemma In_values_drop_session k d m :
  In m (values (drop_session k d)) ->
  In m (values d) /\ m_session_id m <> k.
Proof.
  unfold drop_session.
  rewrite (values_filter_snd
             (fun m => negb (String.eqb (m_session_id m) k))).
  rewrite filter_In. intros [H E]. split; [assumption|].
  now destruct (String.eqb_spec (m_session_id m) k).
Qed.

Lemma mem_without {V} k (d : dict V) k' :
  mem k' (without k d) = negb (String.eqb k' k) && mem k' d.
Proof.
  rewrite !mem_get, get_without. now destruct (String.eqb k' k).
Qed.

Lemma no_orphans_empty : no_orphans empty_store.
Proof. intros m []. Qed.

Lemma handle_create_session_no_orphans st name env :
  no_orphans st -> no_orphans (fst (handle_create_session st name env)).
Proof.
  intros Hno.
  destruct (create_session_cases st name env) as [[_ ->]|[_ ->]]; simpl;
    [assumption|].
  intros m Hin. unfold session_exists. simpl.
  rewrite mem_set. apply orb_true_iff. right. now apply Hno.
Qed.

Lemma handle_delete_session_no_orphans st a :
  wf st -> no_orphans st -> no_orphans (fst (handle_delete_session st a)).
Proof.
  intros Hwf Hno.
  destruct (delete_session_cases st a Hwf) as [[e ->]|[s (_ & _ & ->)]];
    simpl; [assumption|].
  intros m Hin. simpl in Hin. apply In_values_drop_session in Hin.
  destruct Hin as [Hin Hne]. unfold session_exists. simpl.
  rewrite mem_without. apply andb_true_iff. split.
  - now destruct (String.eqb_spec (m_session_id m) (val a)).
  - now apply Hno.
Qed.

Lemma handle_add_memory_no_orphans st a c tags env :
  no_orphans st -> no_orphans (fst (handle_add_memory st a c tags env)).
Proof.
  intros Hno.
  destruct (add_memory_cases st a c tags env)
    as [[e ->]|[s (_ & _ & Hs & H)]]; simpl; [assumption|].
  simpl in H. rewrite H. simpl.
  intros m Hin. simpl in Hin. unfold session_exists. simpl.
  rewrite mem_set_memory_count.
  apply In_values in Hin. destruct Hin as [k Hin].
  apply In_set in Hin. destruct Hin as [[_ ->]|Hin]; simpl.
  - rewrite mem_get, Hs. reflexivity.
  - apply Hno. apply In_values. eauto.
Qed.

Lemma session_exists_update_count st k k' :
  session_exists (update_session_memory_count st k) k' = session_exists st k'.
Proof.
  unfold update_session_memory_count, session_exists.
  destruct (mem k (sessions st)); [|reflexivity].
  simpl. apply mem_set_memory_count.
Qed.

Lemma memories_update_count st k :
  memories (update_session_memory_count st k) = memories st.
Proof.
  unfold update_session_memory_count.
  now destruct (mem k (sessions st)).
Qed.

Lemma handle_remove_memory_no_orphans st a :
  wf st -> no_orphans st -> no_orphans (fst (handle_remove_memory st a)).
Proof.
  intros Hwf Hno.
  destruct (remove_memory_cases st a Hwf) as [[e ->]|[m0 (_ & _ & H)]];
    simpl; [assumption|].
  simpl in H. rewrite H. simpl.
  intros m Hin. rewrite memories_update_count in Hin. simpl in Hin.
  rewrite session_exists_update_count.
  apply In_values_filter in Hin. now apply Hno.
Qed.

Lemma handle_clear_session_no_orphans st a :
  wf st -> no_orphans st -> no_orphans (fst (handle_clear_session st a)).
Proof.
  intros Hwf Hno.
  destruct (clear_session_cases st a Hwf) as [[e ->]|[s (_ & _ & ->)]];
    simpl; [assumption|].
  intros m Hin. simpl in Hin. apply In_values_drop_session in Hin.
  unfold session_exists. simpl. rewrite mem_set_memory_count.
  apply Hno. tauto.
Qed.

Lemma handle_call_tool_no_orphans st name arguments env :
  wf st -> no_orphans st ->
  no_orphans (fst (handle_call_tool st name arguments env)).
Proof.
  intros Hwf Hno. by_tool name.
  - now apply handle_create_session_no_orphans.
  - assumption.
  - now apply handle_delete_session_no_orphans.
  - now apply handle_add_memory_no_orphans.
  - now rewrite handle_get_memories_store.
  - now apply handle_remove_memory_no_orphans.
  - now apply handle_clear_session_no_orphans.
  - now rewrite handle_search_memories_store.
  - assumption.
Qed.

Lemma run_no_orphans rs :
  forall st, wf st -> no_orphans st -> no_orphans (run st rs).
Proof.
  induction rs as [|[[name arguments] env] rs IH]; intros st Hwf Hno; simpl.
  - assumption.
  - apply IH.
    + now apply handle_call_tool_wf.
    + now apply handle_call_tool_no_orphans.
Qed.

(** ** The derived count *)

Lemma get_session_memories_sessions ss ss' ms k :
  get_session_memories (mkStore ss ms) k
  = get_session_memories (mkStore ss' ms) k.
Proof. reflexivity. Qed.

Lemma no_orphans_absent st k :
  no_orphans st -> session_exists st k = false ->
  get_session_memories st k = [].
Proof.
  intros Hno Hk. unfold get_session_memories.
  assert (H : forall m, In m (values (memories st)) ->
                        String.eqb (m_session_id m) k = false).
  { intros m Hin. destruct (String.eqb_spec (m_session_id m) k) as [E|];
      [|reflexivity].
    apply Hno in Hin. congruence. }
  induction (values (memories st)) as [|m l IH]; simpl; [reflexivity|].
  rewrite (H m) by now left. apply IH. intros m' Hin. apply H. now right.
Qed.

Lemma filter_values_without {V} (p : V -> bool) k v (d : dict V) :
  NoDup (keys d) -> get k d = Some v -> p v = false ->
  filter p (values (without k d)) = filter p (values d).
Proof.
  induction d as [|[k0 v0] d IH]; simpl; [discriminate|].
  intros Hnd Hg Hp. inversion Hnd as [|? ? Hnotin Hnd']; subst.
  rewrite (String.eqb_sym k0 k).
  destruct (String.eqb_spec k k0) as [->|Hne]; simpl.
  - inversion Hg; subst. rewrite Hp. now rewrite without_notin.
  - destruct (p v0); simpl; rewrite IH; auto.
Qed.

Lemma counts_ok_empty : counts_ok empty_store.
Proof. intros k s H. discriminate. Qed.

Lemma handle_create_session_counts st name env :
  no_orphans st -> counts_ok st -> mem (new_id env) (sessions st) = false ->
  counts_ok (fst (handle_create_session st name env)).
Proof.
  intros Hno Hc Hf.
  destruct (create_session_cases st name env) as [[_ ->]|[_ ->]]; simpl;
    [assumption|].
  intros k s. simpl. rewrite get_set.
  destruct (String.eqb_spec k (new_id env)) as [->|Hne].
  - intros H. inversion H; subst. simpl.
    rewrite (get_session_memories_sessions _ (sessions st)).
    replace (mkStore (sessions st) (memories st)) with st by now destruct st.
    rewrite no_orphans_absent; auto.
  - intros H. apply Hc in H. rewrite H. reflexivity.
Qed.

Lemma handle_delete_session_counts st a :
  wf st -> counts_ok st -> counts_ok (fst (handle_delete_session st a)).
Proof.
  intros Hwf Hc.
  destruct (delete_session_cases st a Hwf) as [[e ->]|[s0 (_ & _ & ->)]];
    simpl; [assumption|].
  intros k s. simpl. rewrite get_without.
  destruct (String.eqb_spec k (val a)) as [->|Hne]; [discriminate|].
  intros H. apply Hc in H. rewrite H.
  rewrite (get_session_memories_drop_other _ _ _ _ Hne). reflexivity.
Qed.

Lemma handle_add_memory_counts st a c tags env :
  counts_ok st -> mem (new_id env) (memories st) = false ->
  counts_ok (fst (handle_add_memory st a c tags env)).
Proof.
  intros Hc Hf.
  destruct (add_memory_cases st a c tags env)
    as [[e ->]|[s0 (_ & _ & Hs & H)]]; simpl; [assumption|].
  simpl in H. rewrite H. simpl. clear H.
  intros k s. simpl. rewrite get_set_memory_count.
  destruct (String.eqb_spec k (val a)) as [->|Hne].
  - rewrite Hs. simpl. intros H. inversion H; subst. reflexivity.
  - intros H. apply Hc in H. rewrite H.
    rewrite set_fresh by assumption.
    unfold get_session_memories. simpl.
    rewrite values_app, filter_app. simpl.
    destruct (String.eqb_spec (val a) k); [congruence|].
    now rewrite app_nil_r.
Qed.

Lemma handle_remove_memory_counts st a :
  wf st -> counts_ok st -> counts_ok (fst (handle_remove_memory st a)).
Proof.
  intros Hwf Hc.
  destruct (remove_memory_cases st a Hwf) as [[e ->]|[m0 (_ & Hm & H)]];
    simpl; [assumption|].
  simpl in H. rewrite H. simpl. clear H.
  assert (Hother : forall k, k <> m_session_id m0 ->
            get_session_memories
              (mkStore (sessions st) (without (val a) (memories st))) k
            = get_session_memories st k).
  { intros k Hne. unfold get_session_memories. simpl.
    apply filter_values_without with (v := m0); auto; [apply Hwf|].
    destruct (String.eqb_spec (m_session_id m0) k); congruence. }
  unfold update_session_memory_count. simpl.
  destruct (mem (m_session_id m0) (sessions st)) eqn:Hmem.
  - intros k s. simpl. rewrite get_set_memory_count.
    destruct (String.eqb_spec k (m_session_id m0)) as [->|Hne].
    + destruct (get (m_session_id m0) (sessions st)); [|discriminate].
      simpl. intros H. inversion H; subst. reflexivity.
    + intros H. apply Hc in H. rewrite H.
      rewrite <- (Hother k Hne). reflexivity.
  - intros k s H. simpl in H.
    assert (Hne : k <> m_session_id m0).
    { intros ->. rewrite mem_get, H in Hmem. discriminate. }
    apply Hc in H. rewrite H, (Hother k Hne). reflexivity.
Qed.

Lemma handle_clear_session_counts st a :
  wf st -> counts_ok st -> counts_ok (fst (handle_clear_session st a)).
Proof.
  intros Hwf Hc.
  destruct (clear_session_cases st a Hwf) as [[e ->]|[s0 (_ & Hs & ->)]];
    simpl; [assumption|].
  intros k s. simpl. rewrite get_set_memory_count.
  destruct (String.eqb_spec k (val a)) as [->|Hne].
  - rewrite Hs. simpl. intros H. inversion H; subst. simpl.
    now rewrite get_session_memories_drop.
  - intros H. apply Hc in H. rewrite H.
    rewrite (get_session_memories_drop_other _ _ _ _ Hne). reflexivity.
Qed.

Lemma handle_call_tool_counts st name arguments env :
  wf st -> no_orphans st -> counts_ok st ->
  fresh st (name, arguments, env) = true ->
  counts_ok (fst (handle_call_tool st name arguments env)).
Proof.
  intros Hwf Hno Hc Hf. unfold fresh in Hf. unfold handle_call_tool.
  destruct (String.eqb name "create_session").
  { apply handle_create_session_counts; auto. now apply negb_true_iff. }
  destruct (String.eqb name "list_sessions"); [assumption|].
  destruct (String.eqb name "delete_session");
    [now apply handle_delete_session_counts|].
  destruct (String.eqb name "add_memory").
  { apply handle_add_memory_counts; auto. now apply negb_true_iff. }
  destruct (String.eqb name "get_memories");
    [now rewrite handle_get_memories_store|].
  destruct (String.eqb name "remove_memory");
    [now apply handle_remove_memory_counts|].
  destruct (String.eqb name "clear_session");
    [now apply handle_clear_session_counts|].
  destruct (String.eqb name "search_memories");
    [now rewrite handle_search_memories_store | assumption].
Qed.

Lemma run_counts rs :
  forall st, wf st -> no_orphans st -> counts_ok st ->
             fresh_run st rs = true -> counts_ok (run st rs).
Proof.
  induction rs as [|[[name arguments] env] rs IH];
    intros st Hwf Hno Hc Hf; simpl.
  - assumption.
  - simpl in Hf. apply andb_true_iff in Hf. destruct Hf as [Hf Hrest].
    apply IH; auto.
    + now apply handle_call_tool_wf.
    + now apply handle_call_tool_no_orphans.
    + now apply handle_call_tool_counts.
Qed.

Example workflow_store :
  run empty_store workflow
  = mkStore
      [ ("s1", mkSession "s1" "project_ideas" "2024-05-01T10:00:00.000001" 2);
        ("s2", mkSession "s2" "meeting_notes" "2024-05-01T10:00:00.000002" 0) ]
      [ ("m1", mkMemory "m1" "s1"
                 "Build a drawing tutorial app with step-by-step guides"
                 "2024-05-01T10:00:01.000000" ["app"; "tutorial"; "drawing"]);
        ("m6", mkMemory "m6" "s1" "Sketch the app icon"
                 "2024-05-01T10:00:09.000000" ["app"]) ].
Proof. reflexivity. Qed.

(** ** The claims about the repository *)

(** C1. After any sequence of operations in which the identifier
    generator hands out, to each call that makes a session or a memory, an
    identifier that is not a key of that store, every session in the store
    has a [memory_count] equal to the number of memories in the memory
    store whose [session_id] is that session's [id]. *)
Theorem memory_count_is_derived (rs : list Request) :
  fresh_run empty_store rs = true ->
  forall s, In s (values (sessions (run empty_store rs))) ->
    s_memory_count s
    = List.length
        (filter (fun m => String.eqb (m_session_id m) (s_id s))
                (values (memories (run empty_store rs)))).
Proof.
  intros Hf s Hin.
  pose proof (run_wf rs empty_store wf_empty) as Hwf.
  pose proof (run_counts rs empty_store wf_empty no_orphans_empty
                counts_ok_empty Hf) as Hc.
  apply In_values in Hin. destruct Hin as [k Hin].
  rewrite (wf_sessions_keyed _ Hwf k s Hin).
  apply Hc. apply In_get; [apply Hwf | assumption].
Qed.

Lemma memory_count_is_derived_witness :
  fresh_run empty_store workflow = true
  /\ forall s, In s (values (sessions (run empty_store workflow))) ->
       s_memory_count s
       = List.length
           (filter (fun m => String.eqb (m_session_id m) (s_id s))
                   (values (memories (run empty_store workflow)))).
Proof.
  split; [reflexivity|].
  apply (memory_count_is_derived workflow). reflexivity.
Defined.

(** The generator's uniqueness is needed: a second session made under an
    identifier in use takes the place of the first with a count of 0,
    while the memories of the first still refer to the identifier. *)
Example memory_count_stale_on_collision :
  let st := run empty_store
              [ create_session_req "a" "s1" "2024-05-01T10:00:00";
                add_memory_req "s1" "x" [] "m1" "2024-05-01T10:00:01";
                create_session_req "b" "s1" "2024-05-01T10:00:02" ] in
  get "s1" (sessions st) = Some (mkSession "s1" "b" "2024-05-01T10:00:02" 0)
  /\ List.length (get_session_memories st "s1") = 1.
Proof. split; reflexivity. Qed.

(** C2. In the store reached by any sequence of operations every memory
    refers to a session that is in the store. There, deleting an existing
    session (its identifier is a generated one, hence not empty) removes
    the session and exactly the memories that refer to it, reports how
    many memories that was, and [get_memories] on the identifier then
    answers that the session does not exist. *)
Theorem delete_session_cascades (rs : list Request) (session_id : string) :
  let st := run empty_store rs in
  (forall m, In m (values (memories st)) ->
             In (m_session_id m) (keys (sessions st)))
  /\ (session_id <> EmptyString ->
      forall session, get session_id (sessions st) = Some session ->
      let st' := mkStore (without session_id (sessions st))
                         (drop_session session_id (memories st)) in
      handle_delete_session st (Some session_id)
      = (st', SessionDeleted session session_id
                (List.length
                   (filter (fun m => String.eqb (m_session_id m) session_id)
                           (values (memories st)))))
      /\ ~ In session_id (keys (sessions st'))
      /\ (forall m, In m (values (memories st')) ->
                    m_session_id m <> session_id
                    /\ In (m_session_id m) (keys (sessions st')))
      /\ handle_get_memories st' (Some session_id)
         = (st', Error GetMemories (SessionNotFound session_id))).
Proof.
  intros st.
  pose proof (run_wf rs empty_store wf_empty) as Hwf.
  pose proof (run_no_orphans rs empty_store wf_empty no_orphans_empty) as Hno.
  fold st in Hwf, Hno. split.
  - intros m Hin. apply mem_In. now apply Hno.
  - intros Hne session Hs st'.
    assert (Hmiss : missing (Some session_id) = false).
    { destruct session_id; [congruence | reflexivity]. }
    destruct (delete_session_cases st (Some session_id) Hwf)
      as [[e He]|[s (_ & Hs' & Hd)]].
    + exfalso. unfold handle_delete_session in He.
      rewrite Hmiss in He. simpl in He.
      unfold session_exists in He. rewrite mem_get, Hs in He. simpl in He.
      rewrite del_each_session in He by assumption.
      rewrite del_without in He;
        [discriminate | apply Hwf | now rewrite mem_get, Hs].
    + simpl in Hs', Hd. rewrite Hs in Hs'. inversion Hs'; subst s.
      assert (Hgone : mem session_id (sessions st') = false).
      { unfold st'. simpl. rewrite mem_without, String.eqb_refl.
        reflexivity. }
      repeat split.
      * exact Hd.
      * now apply mem_false_In.
      * apply In_values_drop_session in H. tauto.
      * apply mem_In.
        pose proof (handle_delete_session_no_orphans st (Some session_id)
                      Hwf Hno) as Hno'.
        rewrite Hd in Hno'. now apply Hno'.
      * unfold handle_get_memories. rewrite Hmiss. simpl.
        unfold session_exists. simpl in Hgone. simpl. now rewrite Hgone.
Qed.

Lemma delete_session_cascades_witness :
  let st := run empty_store workflow in
  "s1" <> EmptyString
  /\ get "s1" (sessions st)
     = Some (mkSession "s1" "project_ideas" "2024-05-01T10:00:00.000001" 2)
  /\ handle_get_memories
       (mkStore (without "s1" (sessions st)) (drop_session "s1" (memories st)))
       (Some "s1")
     = (mkStore (without "s1" (sessions st))
                (drop_session "s1" (memories st)),
        Error GetMemories (SessionNotFound "s1")).
Proof.
  intros st.
  assert (Hne : "s1" <> EmptyString) by discriminate.
  assert (Hs : get "s1" (sessions st)
               = Some (mkSession "s1" "project_ideas"
                                 "2024-05-01T10:00:00.000001" 2))
    by (vm_compute; reflexivity).
  split; [exact Hne|]. split; [exact Hs|].
  exact (proj2 (proj2 (proj2
           (proj2 (delete_session_cascades workflow "s1") Hne _ Hs)))).
Defined.

(** C8. In the store reached by any sequence of operations, clearing an
    existing session (its identifier is a generated one, hence not empty)
    removes the memories that refer to it and leaves every other memory as
    it was and where it was; the session stays, with its identifier, name
    and creation time and with [memory_count] 0; the sessions are the same
    keys in the same order, and every other session record is unchanged. *)
Theorem clear_session_frame (rs : list Request) (session_id : string) :
  let st := run empty_store rs in
  session_id <> EmptyString ->
  forall session, get session_id (sessions st) = Some session ->
  exists st',
    handle_clear_session st (Some session_id)
    = (st', SessionCleared (s_name session) session_id
              (List.length
                 (filter (fun m => String.eqb (m_session_id m) session_id)
                         (values (memories st)))))
    /\ memories st'
       = filter (fun kv => negb (String.eqb (m_session_id (snd kv)) session_id))
                (memories st)
    /\ keys (sessions st') = keys (sessions st)
    /\ get session_id (sessions st')
       = Some (mkSession (s_id session) (s_name session)
                         (s_created_at session) 0)
    /\ (forall k, k <> session_id ->
                  get k (sessions st') = get k (sessions st)).
Proof.
  intros st Hne session Hs.
  pose proof (run_wf rs empty_store wf_empty) as Hwf. fold st in Hwf.
  assert (Hmiss : missing (Some session_id) = false).
  { destruct session_id; [congruence | reflexivity]. }
  destruct (clear_session_cases st (Some session_id) Hwf)
    as [[e He]|[s (_ & Hs' & Hc)]].
  - exfalso. unfold handle_clear_session in He.
    rewrite Hmiss in He. simpl in He.
    unfold session_exists in He. rewrite mem_get, Hs in He. simpl in He.
    rewrite del_each_session in He by assumption. discriminate.
  - simpl in Hs', Hc. rewrite Hs in Hs'. inversion Hs'; subst s.
    eexists. split; [exact Hc|]. simpl. repeat split.
    + apply keys_set_memory_count.
    + now rewrite get_set_memory_count, String.eqb_refl, Hs.
    + intros k Hk. rewrite get_set_memory_count.
      now destruct (String.eqb_spec k session_id).
Qed.

Lemma clear_session_frame_witness :
  let st := run empty_store workflow in
  exists st',
    handle_clear_session st (Some "s1")
    = (st', SessionCleared "project_ideas" "s1" 2)
    /\ memories st' = []
    /\ get "s1" (sessions st')
       = Some (mkSession "s1" "project_ideas" "2024-05-01T10:00:00.000001" 0)
    /\ get "s2" (sessions st') = get "s2" (sessions st).
Proof.
  intros st.
  assert (Hne : "s1" <> EmptyString) by discriminate.
  assert (Hs : get "s1" (sessions st)
               = Some (mkSession "s1" "project_ideas"
                                 "2024-05-01T10:00:00.000001" 2))
    by (vm_compute; reflexivity).
  destruct (clear_session_frame workflow "s1" Hne _ Hs)
    as [st' (H1 & H2 & H3 & H4 & H5)].
  exists st'. split; [exact H1|]. split; [exact H2|]. split; [exact H4|].
  apply H5. discriminate.
Defined.

(** ** Blank arguments *)

Lemma lstrip_all_space s :
  PyStr.all_space s = true -> PyStr.lstrip s = EmptyString.
Proof.
  induction s as [|c s IH]; simpl; [reflexivity|].
  destruct (PyStr.isspace c); simpl; [assumption | discriminate].
Qed.

Lemma lstrip_not_all_space s :
  PyStr.all_space s = false ->
  exists c r, PyStr.lstrip s = String c r /\ PyStr.isspace c = false.
Proof.
  induction s as [|c s IH]; simpl; [discriminate|].
  destruct (PyStr.isspace c) eqn:E; simpl; eauto.
Qed.

Lemma rstrip_head_kept c r :
  PyStr.isspace c = false -> PyStr.rstrip (String c r) <> EmptyString.
Proof.
  intros E. simpl. destruct (PyStr.rstrip r); [rewrite E|]; discriminate.
Qed.

(** [s.strip()] is empty exactly when [s] holds white space only. *)
Lemma strip_empty_iff s :
  PyStr.truthy (PyStr.strip s) = false <-> PyStr.all_space s = true.
Proof.
  unfold PyStr.strip. destruct (PyStr.all_space s) eqn:E.
  - rewrite lstrip_all_space by assumption. simpl. tauto.
  - destruct (lstrip_not_all_space s E) as [c [r [-> Hc]]].
    pose proof (rstrip_head_kept c r Hc) as H.
    destruct (PyStr.rstrip (String c r)); [congruence|]. simpl.
    split; discriminate.
Qed.

Lemma all_space_nil_truthy s :
  PyStr.truthy s = false -> PyStr.all_space s = true.
Proof. destruct s; [reflexivity | discriminate]. Qed.

(** [not a or not a.strip()] says that the argument is absent or holds
    white space only. *)
Lemma blank_iff a :
  blank a = true
  <-> a = None \/ exists s, a = Some s /\ PyStr.all_space s = true.
Proof.
  destruct a as [s|]; simpl.
  - rewrite orb_true_iff, !negb_true_iff, strip_empty_iff. split.
    + intros [H|H]; right; exists s; split; auto.
      now apply all_space_nil_truthy.
    + intros [H|[s' [H1 H2]]]; [discriminate|]. inversion H1; subst. auto.
  - split; auto.
Qed.

Lemma missing_iff a : missing a = true <-> a = None \/ a = Some EmptyString.
Proof.
  destruct a as [[|c s]|]; simpl; split; auto; try discriminate.
  - intros [H|H]; discriminate.
Qed.

(** C5. [add_memory] checks, in this order, that the session identifier
    is present, that the content is more than white space, and that the
    session exists; the first check that fails decides the error, so
    content that is absent, empty or white space only is reported as such
    whether or not the identifier names a session; when no check fails a
    memory is added. *)
Theorem add_memory_check_order (st : Store) (session_id content : option string)
  (tags : option (list string)) (env : Env) :
  let reply := snd (handle_add_memory st session_id content tags env) in
  (session_id = None \/ session_id = Some EmptyString ->
   reply = Error AddMemory EmptySessionId)
  /\ (forall sid, session_id = Some sid -> sid <> EmptyString ->
        (content = None
         \/ exists c, content = Some c /\ PyStr.all_space c = true) ->
        reply = Error AddMemory EmptyContent)
  /\ (forall sid c, session_id = Some sid -> sid <> EmptyString ->
        content = Some c -> PyStr.all_space c = false ->
        session_exists st sid = false ->
        reply = Error AddMemory (SessionNotFound sid))
  /\ (forall sid c, session_id = Some sid -> sid <> EmptyString ->
        content = Some c -> PyStr.all_space c = false ->
        session_exists st sid = true ->
        exists name n,
          reply = MemoryAdded (new_id env) name sid (now env)
                    (tags_or_default tags) n (PyStr.strip c)).
Proof.
  intros reply. subst reply.
  assert (Hmiss : forall sid, session_id = Some sid -> sid <> EmptyString ->
                              missing session_id = false).
  { intros sid -> Hne. destruct sid; [congruence | reflexivity]. }
  assert (Hblank : forall c, content = Some c -> PyStr.all_space c = false ->
                             blank content = false).
  { intros c -> Hc. destruct (blank (Some c)) eqn:E; [|reflexivity].
    apply blank_iff in E. destruct E as [E|[s [E1 E2]]]; [discriminate|].
    inversion E1; subst. congruence. }
  repeat split.
  - intros H. apply missing_iff in H. unfold handle_add_memory.
    now rewrite H.
  - intros sid Hs Hne Hc. apply blank_iff in Hc. unfold handle_add_memory.
    now rewrite (Hmiss sid Hs Hne), Hc.
  - intros sid c Hs Hne Hc Hsp He. unfold handle_add_memory.
    rewrite (Hmiss sid Hs Hne), (Hblank c Hc Hsp). subst. simpl.
    now rewrite He.
  - intros sid c Hs Hne Hc Hsp He.
    pose proof (Hmiss sid Hs Hne) as Hm. pose proof (Hblank c Hc Hsp) as Hb.
    subst session_id content.
    destruct (proj1 (session_exists_get _ _) He) as [s Hg].
    rewrite (add_memory_ok st (Some sid) (Some c) tags env s Hm Hb Hg).
    simpl. eauto.
Qed.

Lemma add_memory_check_order_witness :
  snd (handle_add_memory (run empty_store workflow) (Some "s9")
         (Some "   ") None (mkEnv "m7" "2024-05-01T10:00:10.000000"))
  = Error AddMemory EmptyContent.
Proof.
  refine (proj1 (proj2 (add_memory_check_order (run empty_store workflow)
            (Some "s9") (Some "   ") None
            (mkEnv "m7" "2024-05-01T10:00:10.000000")))
          "s9" eq_refl _ _).
  - discriminate.
  - right. exists "   ". split; reflexivity.
Defined.

(** C6. A mutating handler that answers with an error leaves both stores
    as they were, and [create_session] with a name that is absent, empty
    or white space only answers that the name cannot be empty and stores
    nothing. *)
Theorem errors_leave_store_unchanged (st : Store) :
  (forall name env st' h e,
      handle_create_session st name env = (st', Error h e) -> st' = st)
  /\ (forall session_id content tags env st' h e,
         handle_add_memory st session_id content tags env = (st', Error h e) ->
         st' = st)
  /\ (forall memory_id st' h e,
         handle_remove_memory st memory_id = (st', Error h e) -> st' = st)
  /\ (forall session_id st' h e,
         handle_clear_session st session_id = (st', Error h e) -> st' = st)
  /\ (forall session_id st' h e,
         handle_delete_session st session_id = (st', Error h e) -> st' = st)
  /\ (forall name env,
         (name = None
          \/ exists s, name = Some s /\ PyStr.all_space s = true) ->
         handle_create_session st name env
         = (st, Error CreateSession EmptyName)).
Proof.
  repeat split.
  - intros name env st' h e. unfold handle_create_session.
    destruct (blank name); intros H; inversion H; reflexivity.
  - intros a c tags env st' h e. unfold handle_add_memory.
    destruct (missing a); [intros H; inversion H; reflexivity|].
    destruct (blank c); [intros H; inversion H; reflexivity|].
    destruct (negb _); [intros H; inversion H; reflexivity|].
    destruct (get _ _); intros H; inversion H.
  - intros a st' h e. unfold handle_remove_memory.
    destruct (missing a); [intros H; inversion H; reflexivity|].
    destruct (negb _); [intros H; inversion H; reflexivity|].
    destruct (get _ _); [|intros H; inversion H].
    destruct (del _ _); intros H; inversion H.
  - intros a st' h e. unfold handle_clear_session.
    destruct (missing a); [intros H; inversion H; reflexivity|].
    destruct (negb _); [intros H; inversion H; reflexivity|].
    destruct (get _ _); [|intros H; inversion H].
    destruct (del_each _ _) as [mems [k|]]; intros H; inversion H.
  - intros a st' h e. unfold handle_delete_session.
    destruct (missing a); [intros H; inversion H; reflexivity|].
    destruct (negb _); [intros H; inversion H; reflexivity|].
    destruct (get _ _); [|intros H; inversion H].
    destruct (del_each _ _) as [mems [k|]]; [intros H; inversion H|].
    destruct (del _ _); intros H; inversion H.
  - intros name env H. apply blank_iff in H. unfold handle_create_session.
    now rewrite H.
Qed.

Lemma errors_leave_store_unchanged_witness :
  let st := run empty_store workflow in
  handle_create_session st (Some "   ")
    (mkEnv "s4" "2024-05-01T10:00:10.000000")
  = (st, Error CreateSession EmptyName)
  /\ fst (handle_delete_session st (Some "s3")) = st.
Proof.
  intros st.
  destruct (errors_leave_store_unchanged st)
    as (_ & _ & _ & _ & Hdelete & Hcreate).
  split.
  - apply Hcreate. right. exists "   ". split; reflexivity.
  - apply (Hdelete (Some "s3") _ DeleteSession (SessionNotFound "s3")).
    vm_compute. reflexivity.
Defined.

(** ** Adding, then reading back *)

Lemma filter_none {A} (p : A -> bool) (l : list A) :
  (forall x, In x l -> p x = false) -> filter p l = [].
Proof.
  induction l as [|x l IH]; simpl; intros H; [reflexivity|].
  rewrite (H x) by now left. apply IH. intros y Hy. apply H. now right.
Qed.

Lemma filter_values_set_only {V} (p : V -> bool) k v (d : dict V) :
  (forall x, In x (values d) -> p x = false) -> p v = true ->
  filter p (values (set k v d)) = [v].
Proof.
  induction d as [|[k0 v0] d IH]; simpl; intros Hd Hv.
  - now rewrite Hv.
  - assert (Hrest : filter p (values d) = []).
    { apply filter_none. intros x Hx. apply Hd. now right. }
    destruct (String.eqb k k0); simpl.
    + now rewrite Hv, Hrest.
    + rewrite (Hd v0) by now left. apply IH; auto.
Qed.

(** C7. When the session exists (its identifier is a generated one,
    hence not empty) and holds no memory, adding a memory whose content is
    more than white space and then reading the session's memories returns
    exactly one memory: its content is the stripped content and its tags
    are the tags supplied, in their order. *)
Theorem add_then_get_round_trip (st : Store) (session_id content : string)
  (tags : list string) (env : Env) :
  session_id <> EmptyString ->
  session_exists st session_id = true ->
  PyStr.all_space content = false ->
  (forall m, In m (values (memories st)) -> m_session_id m <> session_id) ->
  let st' := fst (handle_add_memory st (Some session_id) (Some content)
                    (Some tags) env) in
  exists name,
    handle_get_memories st' (Some session_id)
    = (st', MemoryList name session_id
              [mkMemory (new_id env) session_id (PyStr.strip content)
                        (now env) tags]).
Proof.
  intros Hne He Hsp Hempty st'.
  assert (Hmiss : missing (Some session_id) = false).
  { destruct session_id; [congruence | reflexivity]. }
  assert (Hblank : blank (Some content) = false).
  { destruct (blank (Some content)) eqn:E; [|reflexivity].
    apply blank_iff in E. destruct E as [E|[s [E1 E2]]]; [discriminate|].
    inversion E1; subst. congruence. }
  destruct (proj1 (session_exists_get _ _) He) as [s Hs].
  pose proof (add_memory_ok st (Some session_id) (Some content) (Some tags)
                env s Hmiss Hblank Hs) as Hadd.
  simpl in Hadd.
  set (memory := mkMemory (new_id env) session_id (PyStr.strip content)
                          (now env) tags) in *.
  assert (Hl : forall ss,
             get_session_memories
               (mkStore ss (set (new_id env) memory (memories st))) session_id
             = [memory]).
  { intros ss. unfold get_session_memories. simpl.
    apply filter_values_set_only.
    - intros x Hx. apply Hempty in Hx.
      now destruct (String.eqb_spec (m_session_id x) session_id).
    - simpl. apply String.eqb_refl. }
  rewrite Hl in Hadd. simpl in Hadd.
  assert (Hst' : st' = mkStore (set_memory_count session_id 1 (sessions st))
                               (set (new_id env) memory (memories st))).
  { unfold st'. now rewrite Hadd. }
  exists (s_name s). rewrite Hst'.
  unfold handle_get_memories. rewrite Hmiss. simpl.
  unfold session_exists. simpl.
  rewrite mem_set_memory_count. unfold session_exists in He. rewrite He.
  simpl. rewrite Hl, get_set_memory_count, String.eqb_refl, Hs. reflexivity.
Qed.

Lemma add_then_get_round_trip_witness :
  let st := run empty_store workflow in
  let st' := fst (handle_add_memory st (Some "s2") (Some " Valid content ")
                    (Some ["x"; "y"])
                    (mkEnv "m7" "2024-05-01T10:00:10.000000")) in
  exists name,
    handle_get_memories st' (Some "s2")
    = (st', MemoryList name "s2"
              [mkMemory "m7" "s2" "Valid content"
                        "2024-05-01T10:00:10.000000" ["x"; "y"]]).
Proof.
  intros st.
  apply (add_then_get_round_trip st "s2" " Valid content " ["x"; "y"]
           (mkEnv "m7" "2024-05-01T10:00:10.000000")).
  - discriminate.
  - vm_compute. reflexivity.
  - reflexivity.
  - vm_compute. intros m [<-|[<-|[]]]; discriminate.
Defined.

(** C10. A search whose [session_id] is the empty string never answers
    that the session does not exist: it looks at all memories of all
    sessions and answers as the search without [session_id] does. *)
Theorem search_empty_session_id_is_global (st : Store)
  (query : option string) (tags : option (list string)) :
  search_universe st (Some EmptyString) = inr (values (memories st), None)
  /\ handle_search_memories st query (Some EmptyString) tags
     = handle_search_memories st query None tags
  /\ forall sid,
       snd (handle_search_memories st query (Some EmptyString) tags)
       <> Error SearchMemories (SessionNotFound sid).
Proof.
  split; [reflexivity|]. split; [reflexivity|].
  intros sid. unfold handle_search_memories.
  destruct (blank query); simpl; [discriminate|].
  destruct (hits_of _ _ _ _); simpl; discriminate.
Qed.

(** ** The order of strings *)

Lemma ascii_compare_refl c : Ascii.compare c c = Eq.
Proof. unfold Ascii.compare. apply N.compare_refl. Qed.

Lemma string_compare_refl s : String.compare s s = Eq.
Proof.
  induction s as [|c s IH]; simpl; [reflexivity|].
  now rewrite ascii_compare_refl.
Qed.

Lemma ascii_compare_lt_trans a b c :
  Ascii.compare a b = Lt -> Ascii.compare b c = Lt -> Ascii.compare a c = Lt.
Proof.
  unfold Ascii.compare. rewrite !N.compare_lt_iff. apply N.lt_trans.
Qed.

Lemma string_compare_lt_trans a :
  forall b c, String.compare a b = Lt -> String.compare b c = Lt ->
              String.compare a c = Lt.
Proof.
  induction a as [|x a IH]; intros [|y b] [|z c]; simpl; try congruence.
  destruct (Ascii.compare x y) eqn:Exy; try discriminate;
    destruct (Ascii.compare y z) eqn:Eyz; try discriminate; intros H1 H2.
  - apply Ascii.compare_eq_iff in Exy, Eyz. subst.
    rewrite ascii_compare_refl. eauto.
  - apply Ascii.compare_eq_iff in Exy. subst. now rewrite Eyz.
  - apply Ascii.compare_eq_iff in Eyz. subst. now rewrite Exy.
  - now rewrite (ascii_compare_lt_trans _ _ _ Exy Eyz).
Qed.

Lemma string_leb_trans a b c :
  String.leb a b = true -> String.leb b c = true -> String.leb a c = true.
Proof.
  unfold String.leb.
  destruct (String.compare a b) eqn:Eab; try discriminate;
    destruct (String.compare b c) eqn:Ebc; try discriminate; intros _ _.
  - apply String.compare_eq_iff in Eab, Ebc. subst.
    now rewrite string_compare_refl.
  - apply String.compare_eq_iff in Eab. subst. now rewrite Ebc.
  - apply String.compare_eq_iff in Ebc. subst. now rewrite Eab.
  - now rewrite (string_compare_lt_trans _ _ _ Eab Ebc).
Qed.

Lemma string_ltb_leb a b : String.ltb a b = true -> String.leb a b = true.
Proof.
  unfold String.ltb, String.leb. now destruct (String.compare a b).
Qed.

Lemma string_ltb_false_leb a b :
  String.ltb a b = false -> String.leb b a = true.
Proof.
  unfold String.ltb, String.leb. rewrite (String.compare_antisym b a).
  now destruct (String.compare a b).
Qed.

Lemma string_ltb_irrefl a : String.ltb a a = false.
Proof. unfold String.ltb. now rewrite string_compare_refl. Qed.

(** ** The sort *)

Section SortFacts.
Context {A : Type} (key : A -> string).

Lemma insert_desc_perm x l : Permutation (insert_desc key x l) (x :: l).
Proof.
  induction l as [|y l IH]; simpl; [reflexivity|].
  destruct (String.ltb (key x) (key y)); [|reflexivity].
  rewrite IH. apply perm_swap.
Qed.

Lemma sort_desc_perm l : Permutation (sort_desc key l) l.
Proof.
  induction l as [|x l IH]; simpl; [reflexivity|].
  rewrite insert_desc_perm. now constructor.
Qed.

Lemma In_insert_desc x l z :
  In z (insert_desc key x l) <-> z = x \/ In z l.
Proof.
  split.
  - intros H. apply (Permutation_in _ (insert_desc_perm x l)) in H.
    destruct H; auto.
  - intros H.
    apply (Permutation_in _ (Permutation_sym (insert_desc_perm x l))).
    destruct H; [left | right]; auto.
Qed.

Lemma insert_desc_sorted x l :
  StronglySorted (desc key) l -> StronglySorted (desc key) (insert_desc key x l).
Proof.
  induction l as [|y l IH]; simpl; intros Hs.
  - repeat constructor.
  - inversion Hs as [|? ? Hs' Hall]; subst.
    destruct (String.ltb (key x) (key y)) eqn:E.
    + constructor; [now apply IH|].
      apply Forall_forall. intros z Hz. apply In_insert_desc in Hz.
      destruct Hz as [->|Hz].
      * now apply string_ltb_leb.
      * rewrite Forall_forall in Hall. now apply Hall.
    + apply string_ltb_false_leb in E.
      constructor; [assumption|].
      constructor; [exact E|].
      rewrite Forall_forall in *. intros z Hz.
      unfold desc in *. eapply string_leb_trans; [apply Hall|]; eauto.
Qed.

Lemma sort_desc_sorted l : StronglySorted (desc key) (sort_desc key l).
Proof.
  induction l as [|x l IH]; simpl; [constructor|].
  now apply insert_desc_sorted.
Qed.

Lemma before_cons (a b x : A) l : before a b l -> before a b (x :: l).
Proof.
  intros (i & j & Hlt & Hi & Hj). exists (S i), (S j).
  repeat split; auto. lia.
Qed.

Lemma before_head (a b : A) l : In b l -> before a b (a :: l).
Proof.
  intros H. apply In_nth_error in H. destruct H as [j Hj].
  exists 0, (S j). repeat split; auto. lia.
Qed.

Lemma before_cons_inv (a b x : A) l :
  before a b (x :: l) -> (a = x /\ In b l) \/ before a b l.
Proof.
  intros (i & j & Hlt & Hi & Hj).
  destruct j as [|j]; [lia|]. simpl in Hj.
  destruct i as [|i]; simpl in Hi.
  - left. split; [congruence|]. eapply nth_error_In; eauto.
  - right. exists i, j. repeat split; auto. lia.
Qed.

Lemma before_insert_desc (a b x : A) l :
  before a b l -> before a b (insert_desc key x l).
Proof.
  induction l as [|y l IH]; simpl; intros H.
  - destruct H as (i & j & _ & Hi & _). destruct i; discriminate.
  - destruct (String.ltb (key x) (key y)); [|now apply before_cons].
    apply before_cons_inv in H. destruct H as [[-> Hb]|H].
    + apply before_head. apply In_insert_desc. now right.
    + apply before_cons. now apply IH.
Qed.

Lemma insert_desc_before x b l :
  In b l -> String.ltb (key x) (key b) = false ->
  before x b (insert_desc key x l).
Proof.
  induction l as [|y l IH]; simpl; intros Hin Hk; [contradiction|].
  destruct (String.ltb (key x) (key y)) eqn:E.
  - apply before_cons. apply IH; auto.
    destruct Hin as [->|Hin]; [congruence | assumption].
  - now apply before_head.
Qed.

(** The sort is stable: of two elements, the earlier stays earlier
    unless its key is smaller. *)
Lemma sort_desc_stable a b l :
  before a b l -> String.ltb (key a) (key b) = false ->
  before a b (sort_desc key l).
Proof.
  induction l as [|x l IH]; simpl; intros H Hk.
  - destruct H as (i & j & _ & Hi & _). destruct i; discriminate.
  - apply before_cons_inv in H. destruct H as [[-> Hb]|H].
    + apply insert_desc_before; auto.
      apply (Permutation_in _ (Permutation_sym (sort_desc_perm l))).
      assumption.
    + apply before_insert_desc. now apply IH.
Qed.

End SortFacts.

(** ** Reading a session *)

Example tie_get_memories :
  snd (handle_get_memories (run empty_store tie_requests) (Some "s1"))
  = MemoryList "notes" "s1"
      [ mkMemory "m3" "s1" "C" "2024-05-01T10:00:02.000000" [];
        mkMemory "m1" "s1" "A" "2024-05-01T10:00:01.000000" [];
        mkMemory "m2" "s1" "B" "2024-05-01T10:00:01.000000" [] ].
Proof. reflexivity. Qed.

(** C4, as stated, fails: A and B were added in this order with the same
    creation time, and [get_memories] lists A before B. *)
Lemma get_memories_ties_counterexample :
  ~ later_first_on_ties (run empty_store tie_requests) "s1".
Proof.
  intros H.
  specialize (H "notes"
    [ mkMemory "m3" "s1" "C" "2024-05-01T10:00:02.000000" [];
      mkMemory "m1" "s1" "A" "2024-05-01T10:00:01.000000" [];
      mkMemory "m2" "s1" "B" "2024-05-01T10:00:01.000000" [] ]
    (mkMemory "m1" "s1" "A" "2024-05-01T10:00:01.000000" [])
    (mkMemory "m2" "s1" "B" "2024-05-01T10:00:01.000000" [])
    eq_refl).
  assert (Hb : before (mkMemory "m1" "s1" "A" "2024-05-01T10:00:01.000000" [])
                      (mkMemory "m2" "s1" "B" "2024-05-01T10:00:01.000000" [])
                      (get_session_memories (run empty_store tie_requests)
                                            "s1")).
  { exists 0, 1. repeat split. lia. }
  destruct (H Hb eq_refl) as (i & j & Hlt & Hi & Hj).
  destruct i as [|[|[|i]]]; simpl in Hi; try discriminate;
    try (destruct i; discriminate).
  destruct j as [|[|[|j]]]; simpl in Hj; try discriminate; try lia.
  destruct j; discriminate.
Qed.

(** C4, amended. [get_memories] on an existing session (its identifier
    is a generated one, hence not empty) returns all the memories of the
    session and only them, in descending order of creation time; two
    memories with the same creation time appear in the order in which the
    store holds them, the one stored earlier first. *)
Theorem get_memories_newest_first_stable (st : Store) (session_id : string)
  (session : Session) :
  session_id <> EmptyString ->
  get session_id (sessions st) = Some session ->
  exists l,
    handle_get_memories st (Some session_id)
    = (st, MemoryList (s_name session) session_id l)
    /\ Permutation l
         (filter (fun m => String.eqb (m_session_id m) session_id)
                 (values (memories st)))
    /\ StronglySorted
         (fun a b => String.leb (m_created_at b) (m_created_at a) = true) l
    /\ (forall a b,
           before a b
             (filter (fun m => String.eqb (m_session_id m) session_id)
                     (values (memories st))) ->
           m_created_at a = m_created_at b ->
           before a b l).
Proof.
  intros Hne Hs.
  exists (sort_desc m_created_at (get_session_memories st session_id)).
  repeat split.
  - unfold handle_get_memories.
    replace (missing (Some session_id)) with false
      by (destruct session_id; [congruence | reflexivity]).
    simpl. unfold session_exists. rewrite mem_get, Hs. simpl. reflexivity.
  - apply sort_desc_perm.
  - apply (sort_desc_sorted m_created_at).
  - intros a b Hb He. apply sort_desc_stable; [exact Hb|].
    rewrite He. apply string_ltb_irrefl.
Qed.

Lemma get_memories_newest_first_stable_witness :
  exists l,
    handle_get_memories (run empty_store tie_requests) (Some "s1")
    = (run empty_store tie_requests, MemoryList "notes" "s1" l)
    /\ (forall a b,
           before a b
             (filter (fun m => String.eqb (m_session_id m) "s1")
                     (values (memories (run empty_store tie_requests)))) ->
           m_created_at a = m_created_at b ->
           before a b l).
Proof.
  assert (Hne : "s1" <> EmptyString) by discriminate.
  assert (Hs : get "s1" (sessions (run empty_store tie_requests))
               = Some (mkSession "s1" "notes" "2024-05-01T10:00:00.000001" 3))
    by (vm_compute; reflexivity).
  destruct (get_memories_newest_first_stable
              (run empty_store tie_requests) "s1" _ Hne Hs)
    as [l (H1 & _ & _ & H4)].
  exists l. split; [exact H1 | exact H4].
Defined.

(** ** Search *)

Lemma prefix_iff sub : forall s,
  prefix sub s = true <-> exists post, s = (sub ++ post)%string.
Proof.
  induction sub as [|c sub IH]; intros s; simpl.
  - destruct s; split; eauto.
  - destruct s as [|c' s]; simpl.
    + split; [discriminate | intros [p H]; discriminate].
    + destruct (ascii_dec c c') as [->|Hne].
      * rewrite IH. split; intros [p H]; exists p; congruence.
      * split; [discriminate|]. intros [p H]. congruence.
Qed.

(** [sub in s]: [s] is some text, then [sub], then some text. *)
Lemma contains_iff sub s :
  PyStr.contains sub s = true
  <-> exists pre post, s = (pre ++ sub ++ post)%string.
Proof.
  induction s as [|c s IH]; cbn [PyStr.contains].
  - rewrite orb_false_r, prefix_iff. split.
    + intros [post H]. exists EmptyString, post. exact H.
    + intros [[|c pre] [post H]]; [eauto | discriminate].
  - rewrite orb_true_iff, IH, prefix_iff. split.
    + intros [[post H]|[pre [post H]]].
      * exists EmptyString, post. exact H.
      * exists (String c pre), post. simpl. now rewrite H.
    + intros [[|c' pre] [post H]].
      * left. eauto.
      * right. simpl in H. inversion H; subst. eauto.
Qed.

(** One of the tags asked for is, as it stands, among the memory's. *)
Lemma any_tag_in_iff tags_filter tags :
  any_tag_in tags_filter tags = true
  <-> exists tag, In tag tags_filter /\ In tag tags.
Proof.
  unfold any_tag_in. rewrite existsb_exists. split.
  - intros [tag [H1 H2]]. apply existsb_exists in H2.
    destruct H2 as [t [H2 H3]]. apply String.eqb_eq in H3. subst. eauto.
  - intros [tag [H1 H2]]. exists tag. split; [assumption|].
    apply existsb_exists. exists tag. split; [assumption|].
    apply String.eqb_refl.
Qed.

(** The test of the search loop, in words: the stripped, lowered query
    occurs in the lowered content and, when tags are asked for, one of
    them is among the memory's tags. *)
Lemma matches_iff query_lower tags_filter memory :
  matches query_lower tags_filter memory = true
  <-> (exists pre post,
          PyStr.lower (m_content memory)
          = (pre ++ query_lower ++ post)%string)
      /\ (tags_filter <> [] ->
          exists tag, In tag tags_filter /\ In tag (m_tags memory)).
Proof.
  unfold matches. rewrite andb_true_iff, contains_iff.
  destruct tags_filter as [|t l].
  - split; [intros [H _]; split; [exact H | congruence] | tauto].
  - rewrite any_tag_in_iff. split.
    + intros [H1 H2]. auto.
    + intros [H1 H2]. split; [assumption|]. apply H2. discriminate.
Qed.

(** The result blocks when the replacement template compiles. *)
Lemma hits_of_compiled st query query_lower t l :
  Re.parse_template 0 ("**" ++ query ++ "**")%string = Some t ->
  hits_of st query query_lower l
  = Some (map (fun memory =>
                 mkHit memory (session_name_of st memory)
                   (if PyStr.contains query_lower
                         (PyStr.lower (m_content memory))
                    then Re.replace_all query t 0 (m_content memory)
                    else m_content memory)) l).
Proof.
  intros Ht. induction l as [|m l IH]; simpl; [reflexivity|].
  unfold highlight, Re.sub_escaped_ignorecase. rewrite Ht.
  destruct (PyStr.contains _ _); rewrite IH; reflexivity.
Qed.

(** When the replacement template compiles, the search returns exactly
    the memories of its universe that pass the test. *)
Lemma search_returns_matches st query session_id tags t u scope :
  blank (Some query) = false ->
  search_universe st session_id = inr (u, scope) ->
  Re.parse_template 0 ("**" ++ query ++ "**")%string = Some t ->
  exists hits,
    handle_search_memories st (Some query) session_id tags
    = (st, SearchResults query scope (tags_or_default tags) hits)
    /\ forall m,
         In m (map hit_memory hits)
         <-> In m u
             /\ matches (PyStr.lower (PyStr.strip query))
                        (tags_or_default tags) m = true.
Proof.
  intros Hb Hu Ht. unfold handle_search_memories.
  rewrite Hb, Hu. simpl val.
  rewrite (hits_of_compiled _ _ _ t _ Ht).
  eexists. split; [reflexivity|].
  intros m. rewrite map_map. simpl. rewrite map_id.
  rewrite <- filter_In. split; intros H.
  - apply (Permutation_in _ (sort_desc_perm m_created_at _)). exact H.
  - apply (Permutation_in _
             (Permutation_sym (sort_desc_perm m_created_at _))). exact H.
Qed.

(** C3, at a failing input. The memory "logs are in C:\Users\bob" is in
    the universe of the search for "C:\Users" and passes the test of the
    search loop, but the search returns no result: the replacement
    template "**C:\Users**" does not compile and [pattern.sub] raises. *)
Theorem search_for_path_raises :
  let st := run empty_store path_requests in
  let memory := mkMemory "m1" "s1" "logs are in C:\Users\bob"
                         "2024-05-01T10:00:01.000000" [] in
  search_universe st None
  = inr ([memory;
          mkMemory "m2" "s1" "scratch files go to C:\temp"
                   "2024-05-01T10:00:02.000000" ["disk"]], None)
  /\ matches (PyStr.lower (PyStr.strip "C:\Users")) [] memory = true
  /\ handle_search_memories st (Some "C:\Users") None None
     = (st, Raised TemplateError).
Proof. repeat split. Qed.

(** *** The display of a result *)

Lemma has_backslash_app s1 s2 :
  has_backslash (s1 ++ s2) = has_backslash s1 || has_backslash s2.
Proof.
  induction s1 as [|c s1 IH]; simpl; [reflexivity|].
  now rewrite IH, orb_assoc.
Qed.

Lemma string_app_nil_r s : (s ++ EmptyString)%string = s.
Proof. induction s as [|c s IH]; simpl; [reflexivity | now rewrite IH]. Qed.

(** A template without backslash stands for itself. *)
Lemma parse_template_plain s :
  has_backslash s = false ->
  exists t, Re.parse_template 0 s = Some t
            /\ forall matched, Re.expand t matched = s.
Proof.
  induction s as [|c s IH]; simpl; intros H.
  - exists []. split; reflexivity.
  - apply orb_false_iff in H. destruct H as [Hc Hs]. rewrite Hc.
    destruct (IH Hs) as [t [Ht He]]. rewrite Ht. simpl.
    eexists. split; [reflexivity|]. intros matched. simpl. now rewrite He.
Qed.

Lemma replace_all_ext q t t' :
  (forall matched, Re.expand t matched = Re.expand t' matched) ->
  forall s skip, Re.replace_all q t skip s = Re.replace_all q t' skip s.
Proof.
  intros H. induction s as [|c s IH]; intros skip; [reflexivity|].
  cbn [Re.replace_all]. destruct skip as [|k]; [|apply IH].
  destruct (Re.match_here q (String c s)); rewrite ?H, IH; reflexivity.
Qed.

(** For a query without backslash, the content shown is the content
    [emphasized]. *)
Lemma highlight_plain query query_lower content :
  has_backslash query = false ->
  highlight query query_lower content
  = Some (if PyStr.contains query_lower (PyStr.lower content)
          then emphasized query content else content).
Proof.
  intros H. unfold highlight, Re.sub_escaped_ignorecase.
  destruct (PyStr.contains _ _); [|reflexivity].
  destruct (parse_template_plain ("**" ++ query ++ "**")%string)
    as [t [Ht He]].
  { rewrite !has_backslash_app, H. reflexivity. }
  rewrite Ht. unfold emphasized. f_equal.
  apply replace_all_ext. intros matched. rewrite He. simpl.
  now rewrite string_app_nil_r.
Qed.

(** A search whose query holds no backslash returns exactly the memories
    of its universe that pass the test, each shown [emphasized]. *)
Lemma search_plain_query st query session_id tags u scope :
  blank (Some query) = false ->
  has_backslash query = false ->
  search_universe st session_id = inr (u, scope) ->
  exists hits,
    handle_search_memories st (Some query) session_id tags
    = (st, SearchResults query scope (tags_or_default tags) hits)
    /\ (forall m,
           In m (map hit_memory hits)
           <-> In m u
               /\ matches (PyStr.lower (PyStr.strip query))
                          (tags_or_default tags) m = true)
    /\ (forall hit, In hit hits ->
           hit_content hit
           = emphasized query (m_content (hit_memory hit))).
Proof.
  intros Hb Hq Hu.
  destruct (parse_template_plain ("**" ++ query ++ "**")%string)
    as [t [Ht He]].
  { rewrite !has_backslash_app, Hq. reflexivity. }
  destruct (search_returns_matches st query session_id tags t u scope
              Hb Hu Ht) as [hits [Hr Hm]].
  exists hits. split; [exact Hr|]. split; [exact Hm|].
  intros hit Hin.
  unfold handle_search_memories in Hr. rewrite Hb, Hu in Hr. simpl val in Hr.
  rewrite (hits_of_compiled _ _ _ t _ Ht) in Hr.
  inversion Hr as [Hhits]. rewrite <- Hhits in Hin.
  apply in_map_iff in Hin. destruct Hin as [m [<- Hin]]. simpl.
  apply (Permutation_in _ (sort_desc_perm m_created_at _)) in Hin.
  apply filter_In in Hin. destruct Hin as [_ Hmatch].
  unfold matches in Hmatch.
  apply andb_true_iff in Hmatch. destruct Hmatch as [Hc _]. rewrite Hc.
  unfold emphasized. apply replace_all_ext. intros matched.
  rewrite He. simpl. now rewrite string_app_nil_r.
Qed.

Example emphasized_ex :
  emphasized "app" "Build an App for apples" = "Build an **app** for **app**les".
Proof. reflexivity. Qed.

(** C9, at a failing input. The search for "C:\temp" finds the memory
    "scratch files go to C:\temp" and shows it with a tab character and
    "emp" between the emphasis markers, where the specification asks for
    the query itself; the store is as it was. *)
Theorem search_for_path_display :
  let st := run empty_store path_requests in
  let memory := mkMemory "m2" "s1" "scratch files go to C:\temp"
                         "2024-05-01T10:00:02.000000" ["disk"] in
  handle_search_memories st (Some "C:\temp") None None
  = (st, SearchResults "C:\temp" None []
           [mkHit memory "notes"
                  ("scratch files go to **C:" ++ Re.chr 9 ++ "emp**")%string])
  /\ emphasized "C:\temp" (m_content memory)
     = "scratch files go to **C:\temp**"
  /\ ("scratch files go to **C:" ++ Re.chr 9 ++ "emp**")%string
     <> emphasized "C:\temp" (m_content memory).
Proof. repeat split. discriminate. Qed.

(** * Further properties of the handlers *)

(** ** Dispatch and the tool catalogue *)





(** X2. A call to an announced tool that lacks an argument its schema
    requires is answered with an error block, and the store stays as it
    was. *)
Theorem missing_required_argument (st : Store) (t : Tool) (key : string)
  (arguments : Arguments) (env : Env) :
  In t handle_list_tools ->
  In key (required_of t) ->
  has_key key arguments = false ->
  exists h e,
    handle_call_tool st (t_name t) arguments env = (st, Error h e).
Proof.
  intros Ht Hk Hmiss. simpl in Ht.
  repeat (destruct Ht as [<-|Ht]; [simpl in Hk|]); try contradiction.
  all: repeat (destruct Hk as [<-|Hk];
               [unfold has_key in Hmiss; simpl in Hmiss|]);
    try contradiction.
  all: unfold handle_call_tool; simpl.
  - destruct (arg_name arguments); [discriminate Hmiss|].
    unfold handle_create_session. simpl. eauto.
  - destruct (arg_session_id arguments); [discriminate Hmiss|].
    unfold handle_delete_session. simpl. eauto.
  - destruct (arg_session_id arguments); [discriminate Hmiss|].
    unfold handle_add_memory. simpl. eauto.
  - destruct (arg_content arguments); [discriminate Hmiss|].
    unfold handle_add_memory.
    destruct (missing (arg_session_id arguments)); simpl; eauto.
  - destruct (arg_session_id arguments); [discriminate Hmiss|].
    unfold handle_get_memories. simpl. eauto.
  - destruct (arg_memory_id arguments); [discriminate Hmiss|].
    unfold handle_remove_memory. simpl. eauto.
  - destruct (arg_session_id arguments); [discriminate Hmiss|].
    unfold handle_clear_session. simpl. eauto.
  - destruct (arg_query arguments); [discriminate Hmiss|].
    unfold handle_search_memories. simpl. eauto.
Qed.

Lemma missing_required_argument_witness :
  exists h e,
    handle_call_tool (run empty_store workflow) "add_memory"
      (mkArguments None (Some "s1") None None None (Some ["x"]))
      (mkEnv "m7" "2024-05-01T10:00:10.000000")
    = (run empty_store workflow, Error h e).
Proof.
  apply (missing_required_argument (run empty_store workflow)
           (mkTool "add_memory" "Add a memory item to a specific session"
              [string_property "session_id"
                 "ID of the session to add memory to";
               string_property "content" "Content of the memory to store";
               tags_property "Optional tags for the memory"]
              (Some ["session_id"; "content"]))
           "content").
  - simpl. tauto.
  - simpl. tauto.
  - reflexivity.
Defined.

(** X3. The tools that read ([list_sessions], [get_memories],
    [search_memories]) leave the store as it was, whatever their arguments
    and whether they answer, report an error or raise. *)
Theorem reading_tools_leave_store (st : Store) (name : string)
  (arguments : Arguments) (env : Env) :
  In name ["list_sessions"; "get_memories"; "search_memories"] ->
  fst (handle_call_tool st name arguments env) = st.
Proof.
  intros [<-|[<-|[<-|[]]]]; unfold handle_call_tool; simpl.
  - reflexivity.
  - apply handle_get_memories_store.
  - apply handle_search_memories_store.
Qed.

Lemma reading_tools_leave_store_witness :
  fst (handle_call_tool (run empty_store path_requests) "search_memories"
         (mkArguments None None None None (Some "C:\Users") None)
         (mkEnv "u9" "2024-05-01T10:00:10.000000"))
  = run empty_store path_requests.
Proof.
  apply (reading_tools_leave_store (run empty_store path_requests)
           "search_memories").
  simpl. tauto.
Defined.

(** X4. In a store reached from the empty one by any sequence of calls,
    no call raises [KeyError]: every [del] and every subscript finds its
    key. *)
Theorem reachable_no_key_error (rs : list Request) (name : string)
  (arguments : Arguments) (env : Env) (k : string) :
  snd (handle_call_tool (run empty_store rs) name arguments env)
  <> Raised (KeyError k).
Proof.
  apply no_key_error. apply run_wf. exact wf_empty.
Qed.

(** X5. In a store reached from the empty one by any sequence of calls,
    no two sessions carry the same [id], no two memories carry the same
    [id], and every record is found under its own [id]. *)
Theorem reachable_ids_unique (rs : list Request) :
  let st := run empty_store rs in
  NoDup (map s_id (values (sessions st)))
  /\ NoDup (map m_id (values (memories st)))
  /\ (forall s, In s (values (sessions st)) ->
                get (s_id s) (sessions st) = Some s)
  /\ (forall m, In m (values (memories st)) ->
                get (m_id m) (memories st) = Some m).
Proof.
  intros st.
  destruct (run_wf rs empty_store wf_empty) as [H1 H2 H3 H4].
  fold st in H1, H2, H3, H4.
  repeat split.
  - now rewrite (keyed_by_keys s_id _ H3).
  - now rewrite (keyed_by_keys m_id _ H4).
  - intros s Hin. apply In_values in Hin. destruct Hin as [k Hin].
    rewrite (H3 k s Hin). now apply In_get.
  - intros m Hin. apply In_values in Hin. destruct Hin as [k Hin].
    rewrite (H4 k m Hin). now apply In_get.
Qed.

Lemma reachable_ids_unique_witness :
  In (mkMemory "m6" "s1" "Sketch the app icon" "2024-05-01T10:00:09.000000"
               ["app"])
     (values (memories (run empty_store workflow)))
  /\ get "m6" (memories (run empty_store workflow))
     = Some (mkMemory "m6" "s1" "Sketch the app icon"
                      "2024-05-01T10:00:09.000000" ["app"]).
Proof.
  assert (Hin : In (mkMemory "m6" "s1" "Sketch the app icon"
                             "2024-05-01T10:00:09.000000" ["app"])
                   (values (memories (run empty_store workflow))))
    by (vm_compute; tauto).
  split; [exact Hin|].
  exact (proj2 (proj2 (proj2 (reachable_ids_unique workflow))) _ Hin).
Defined.

(** ** The mutating handlers on their success path *)

Lemma missing_some k : k <> EmptyString -> missing (Some k) = false.
Proof. destruct k; [congruence | reflexivity]. Qed.

Lemma blank_some c : PyStr.all_space c = false -> blank (Some c) = false.
Proof.
  intros Hc. destruct (blank (Some c)) eqn:E; [|reflexivity].
  apply blank_iff in E. destruct E as [E|[s [E1 E2]]]; [discriminate|].
  inversion E1; subst. congruence.
Qed.

Lemma remove_memory_ok st a m :
  wf st -> missing a = false -> get (val a) (memories st) = Some m ->
  handle_remove_memory st a
  = (update_session_memory_count
       (mkStore (sessions st) (without (val a) (memories st)))
       (m_session_id m),
     MemoryRemoved (val a)
       (match get (m_session_id m) (sessions st) with
        | Some session => s_name session
        | None => "Unknown"
        end)
       (m_session_id m) (m_content m)).
Proof.
  intros Hwf Hm Hg.
  assert (He : mem (val a) (memories st) = true) by now rewrite mem_get, Hg.
  unfold handle_remove_memory. rewrite Hm, He, Hg. simpl.
  rewrite del_without; [| apply Hwf | exact He]. simpl.
  unfold update_session_memory_count. simpl.
  destruct (mem (m_session_id m) (sessions st)); reflexivity.
Qed.

Lemma delete_session_ok st a s :
  wf st -> missing a = false -> get (val a) (sessions st) = Some s ->
  handle_delete_session st a
  = (mkStore (without (val a) (sessions st))
             (drop_session (val a) (memories st)),
     SessionDeleted s (val a)
       (List.length (get_session_memories st (val a)))).
Proof.
  intros Hwf Hm Hs.
  assert (He : mem (val a) (sessions st) = true) by now rewrite mem_get, Hs.
  unfold handle_delete_session, session_exists. rewrite Hm, He, Hs. simpl.
  rewrite del_each_session by assumption.
  rewrite del_without; [| apply Hwf | exact He].
  now rewrite length_map.
Qed.

Lemma clear_session_ok st a s :
  wf st -> missing a = false -> get (val a) (sessions st) = Some s ->
  handle_clear_session st a
  = (mkStore (set_memory_count (val a) 0 (sessions st))
             (drop_session (val a) (memories st)),
     SessionCleared (s_name s) (val a)
       (List.length (get_session_memories st (val a)))).
Proof.
  intros Hwf Hm Hs.
  assert (He : mem (val a) (sessions st) = true) by now rewrite mem_get, Hs.
  unfold handle_clear_session, session_exists. rewrite Hm, He, Hs. simpl.
  rewrite del_each_session by assumption.
  unfold update_session_memory_count. simpl. rewrite He.
  now rewrite get_session_memories_drop.
Qed.

Lemma without_set_fresh {V} k v (d : dict V) :
  mem k d = false -> without k (set k v d) = d.
Proof.
  intros H. rewrite set_fresh by assumption. unfold without.
  rewrite filter_app. simpl. rewrite String.eqb_refl. simpl.
  rewrite app_nil_r. apply without_notin. now apply mem_false_In.
Qed.

Lemma set_memory_count_twice k n n' d :
  set_memory_count k n' (set_memory_count k n d) = set_memory_count k n' d.
Proof.
  induction d as [|[k0 s0] d IH]; simpl; [reflexivity|].
  destruct (String.eqb k k0) eqn:E; simpl; rewrite E; [reflexivity|].
  now rewrite IH.
Qed.

Lemma set_memory_count_same k d s :
  get k d = Some s -> set_memory_count k (s_memory_count s) d = d.
Proof.
  induction d as [|[k0 s0] d IH]; simpl; [discriminate|].
  destruct (String.eqb k k0).
  - intros H. inversion H; subst. now destruct s.
  - intros H. now rewrite IH.
Qed.

Lemma drop_session_none k (d : dict Memory) :
  (forall m, In m (values d) -> m_session_id m <> k) -> drop_session k d = d.
Proof.
  induction d as [|[k0 m0] d IH]; simpl; intros H; [reflexivity|].
  destruct (String.eqb_spec (m_session_id m0) k) as [E|E]; simpl.
  - exfalso. apply (H m0); auto.
  - f_equal. apply IH. intros m Hin. apply H. now right.
Qed.

Lemma store_eta st : mkStore (sessions st) (memories st) = st.
Proof. now destruct st. Qed.

(** ** Removing a memory *)

(** X6. In a store reached by any sequence of calls, removing an
    existing memory (its identifier is a generated one, hence not empty)
    takes out that memory and no other, names the session that owned it,
    sets that session's count to the number of memories it still has, and
    leaves every other session record as it was. *)
Theorem remove_memory_effect (rs : list Request) (memory_id : string)
  (memory : Memory) :
  let st := run empty_store rs in
  memory_id <> EmptyString ->
  get memory_id (memories st) = Some memory ->
  exists st' owner,
    get (m_session_id memory) (sessions st) = Some owner
    /\ handle_remove_memory st (Some memory_id)
       = (st', MemoryRemoved memory_id (s_name owner) (m_session_id memory)
                 (m_content memory))
    /\ memories st'
       = filter (fun kv => negb (String.eqb (fst kv) memory_id)) (memories st)
    /\ keys (sessions st') = keys (sessions st)
    /\ get (m_session_id memory) (sessions st')
       = Some (mkSession (s_id owner) (s_name owner) (s_created_at owner)
                 (List.length
                    (filter (fun m => String.eqb (m_session_id m)
                                                 (m_session_id memory))
                            (values (memories st')))))
    /\ (forall k, k <> m_session_id memory ->
                  get k (sessions st') = get k (sessions st)).
Proof.
  intros st Hne Hg.
  pose proof (run_wf rs empty_store wf_empty) as Hwf.
  pose proof (run_no_orphans rs empty_store wf_empty no_orphans_empty) as Hno.
  fold st in Hwf, Hno.
  assert (Hin : In memory (values (memories st))).
  { apply In_values. exists memory_id. now apply get_In. }
  apply Hno in Hin. pose proof Hin as Hmem.
  apply session_exists_get in Hin. destruct Hin as [owner Ho].
  unfold session_exists in Hmem.
  pose proof (remove_memory_ok st (Some memory_id) memory Hwf
                (missing_some _ Hne) Hg) as Hr.
  simpl in Hr. rewrite Ho in Hr.
  unfold update_session_memory_count in Hr. simpl in Hr. rewrite Hmem in Hr.
  eexists. exists owner. split; [exact Ho|]. split; [exact Hr|].
  simpl. repeat split.
  - apply keys_set_memory_count.
  - now rewrite get_set_memory_count, String.eqb_refl, Ho.
  - intros k Hk. rewrite get_set_memory_count.
    now destruct (String.eqb_spec k (m_session_id memory)).
Qed.

Lemma remove_memory_effect_witness :
  let st := run empty_store workflow in
  exists st' owner,
    handle_remove_memory st (Some "m1")
    = (st', MemoryRemoved "m1" (s_name owner) "s1"
              "Build a drawing tutorial app with step-by-step guides")
    /\ get "s2" (sessions st') = get "s2" (sessions st).
Proof.
  intros st.
  assert (Hne : "m1" <> EmptyString) by discriminate.
  assert (Hg : get "m1" (memories st)
               = Some (mkMemory "m1" "s1"
                         "Build a drawing tutorial app with step-by-step guides"
                         "2024-05-01T10:00:01.000000"
                         ["app"; "tutorial"; "drawing"]))
    by (vm_compute; reflexivity).
  destruct (remove_memory_effect workflow "m1" _ Hne Hg)
    as [st' [owner (_ & H2 & _ & _ & _ & H6)]].
  exists st', owner. split; [exact H2|]. apply H6. discriminate.
Defined.

(** X7. In a store reached by any sequence of calls, once
    [remove_memory] has been called on an identifier (not empty), a second
    call on it reports that the memory does not exist and changes
    nothing. *)
Theorem remove_memory_twice (rs : list Request) (memory_id : string) :
  memory_id <> EmptyString ->
  let st' := fst (handle_remove_memory (run empty_store rs) (Some memory_id)) in
  handle_remove_memory st' (Some memory_id)
  = (st', Error RemoveMemory (MemoryNotFound memory_id)).
Proof.
  intros Hne st'.
  pose proof (run_wf rs empty_store wf_empty) as Hwf.
  assert (Hgone : mem memory_id (memories st') = false).
  { unfold st'.
    destruct (get memory_id (memories (run empty_store rs))) as [m|] eqn:Hg.
    - rewrite (remove_memory_ok _ (Some memory_id) m Hwf
                 (missing_some _ Hne) Hg).
      simpl. rewrite memories_update_count. simpl.
      now rewrite mem_without, String.eqb_refl.
    - assert (Hm : mem memory_id (memories (run empty_store rs)) = false)
        by now rewrite mem_get, Hg.
      unfold handle_remove_memory.
      rewrite (missing_some _ Hne). simpl. rewrite Hm. simpl. exact Hm. }
  unfold handle_remove_memory at 1.
  rewrite (missing_some _ Hne). simpl. now rewrite Hgone.
Qed.

Lemma remove_memory_twice_witness :
  let st' := fst (handle_remove_memory (run empty_store workflow)
                    (Some "m6")) in
  handle_remove_memory st' (Some "m6")
  = (st', Error RemoveMemory (MemoryNotFound "m6")).
Proof.
  apply (remove_memory_twice workflow "m6"). discriminate.
Defined.

(** ** Adding a memory *)

(** X8. Adding a memory with content that is more than white space to an
    existing session (identifier not empty), under an identifier that is
    not a key of [memories], puts the new record last in [memories] with
    every other memory as it was, reports and stores as the session's
    count one more than the number of memories the session had, and
    leaves every other session record as it was. *)
Theorem add_memory_effect (st : Store) (session_id content : string)
  (tags : list string) (env : Env) (session : Session) :
  session_id <> EmptyString ->
  PyStr.all_space content = false ->
  get session_id (sessions st) = Some session ->
  mem (new_id env) (memories st) = false ->
  let memory := mkMemory (new_id env) session_id (PyStr.strip content)
                         (now env) tags in
  let n := S (List.length
                (filter (fun m => String.eqb (m_session_id m) session_id)
                        (values (memories st)))) in
  exists st',
    handle_add_memory st (Some session_id) (Some content) (Some tags) env
    = (st', MemoryAdded (new_id env) (s_name session) session_id (now env)
              tags n (PyStr.strip content))
    /\ memories st' = memories st ++ [(new_id env, memory)]
    /\ keys (sessions st') = keys (sessions st)
    /\ get session_id (sessions st')
       = Some (mkSession (s_id session) (s_name session)
                         (s_created_at session) n)
    /\ (forall k, k <> session_id ->
                  get k (sessions st') = get k (sessions st)).
Proof.
  intros Hne Hc Hs Hfresh memory n.
  pose proof (add_memory_ok st (Some session_id) (Some content) (Some tags)
                env session (missing_some _ Hne) (blank_some _ Hc) Hs) as Ha.
  simpl in Ha. fold memory in Ha.
  assert (Hn : List.length
                 (get_session_memories
                    (mkStore (sessions st)
                             (set (new_id env) memory (memories st)))
                    session_id) = n).
  { unfold get_session_memories. simpl.
    rewrite set_fresh by assumption.
    rewrite values_app, filter_app, length_app. simpl.
    rewrite String.eqb_refl. simpl. unfold n. lia. }
  rewrite Hn in Ha.
  eexists. split; [exact Ha|]. simpl. repeat split.
  - now apply set_fresh.
  - apply keys_set_memory_count.
  - now rewrite get_set_memory_count, String.eqb_refl, Hs.
  - intros k Hk. rewrite get_set_memory_count.
    now destruct (String.eqb_spec k session_id).
Qed.

Lemma add_memory_effect_witness :
  exists st',
    handle_add_memory (run empty_store workflow) (Some "s1")
      (Some " Pick a palette ") (Some ["app"])
      (mkEnv "m7" "2024-05-01T10:00:10.000000")
    = (st', MemoryAdded "m7" "project_ideas" "s1"
              "2024-05-01T10:00:10.000000" ["app"] 3 "Pick a palette")
    /\ get "s2" (sessions st') = get "s2" (sessions (run empty_store workflow)).
Proof.
  assert (Hs : get "s1" (sessions (run empty_store workflow))
               = Some (mkSession "s1" "project_ideas"
                                 "2024-05-01T10:00:00.000001" 2))
    by (vm_compute; reflexivity).
  assert (Hf : mem (new_id (mkEnv "m7" "2024-05-01T10:00:10.000000"))
                   (memories (run empty_store workflow)) = false)
    by (vm_compute; reflexivity).
  destruct (add_memory_effect (run empty_store workflow) "s1"
              " Pick a palette " ["app"]
              (mkEnv "m7" "2024-05-01T10:00:10.000000") _
              ltac:(discriminate) eq_refl Hs Hf)
    as [st' (H1 & _ & _ & _ & H5)].
  exists st'. split; [exact H1|]. apply H5. discriminate.
Defined.

(** X9. In a store reached by a sequence of calls that were handed
    identifiers not in use, adding a memory under an identifier that is
    not empty and not a key of [memories], then removing it, gives back
    the store as it was before the two calls. *)
Theorem add_then_remove_restores (rs : list Request)
  (session_id content : string) (tags : list string) (env : Env) :
  fresh_run empty_store rs = true ->
  let st := run empty_store rs in
  session_id <> EmptyString ->
  PyStr.all_space content = false ->
  session_exists st session_id = true ->
  new_id env <> EmptyString ->
  mem (new_id env) (memories st) = false ->
  fst (handle_remove_memory
         (fst (handle_add_memory st (Some session_id) (Some content)
                 (Some tags) env))
         (Some (new_id env)))
  = st.
Proof.
  intros Hfr st Hne Hc He Hid Hfresh.
  pose proof (run_wf rs empty_store wf_empty) as Hwf.
  pose proof (run_counts rs empty_store wf_empty no_orphans_empty
                counts_ok_empty Hfr) as Hcnt.
  fold st in Hwf, Hcnt.
  destruct (proj1 (session_exists_get _ _) He) as [s Hs].
  pose proof (handle_add_memory_wf st (Some session_id) (Some content)
                (Some tags) env Hwf) as Hwf1.
  pose proof (add_memory_ok st (Some session_id) (Some content) (Some tags)
                env s (missing_some _ Hne) (blank_some _ Hc) Hs) as Ha.
  simpl in Ha. rewrite Ha in Hwf1 |- *. simpl fst in *.
  set (memory := mkMemory (new_id env) session_id (PyStr.strip content)
                          (now env) tags) in *.
  set (st1 := mkStore _ _) in *.
  assert (Hg : get (new_id env) (memories st1) = Some memory).
  { unfold st1. simpl. now rewrite get_set, String.eqb_refl. }
  rewrite (remove_memory_ok st1 (Some (new_id env)) memory Hwf1
             (missing_some _ Hid) Hg).
  simpl. unfold st1. simpl.
  rewrite without_set_fresh by assumption.
  unfold update_session_memory_count. simpl.
  unfold session_exists in He. rewrite mem_set_memory_count, He.
  rewrite set_memory_count_twice.
  rewrite (get_session_memories_sessions _ (sessions st)), store_eta.
  rewrite <- (Hcnt session_id s Hs).
  rewrite (set_memory_count_same _ _ _ Hs). apply store_eta.
Qed.

Lemma add_then_remove_restores_witness :
  fst (handle_remove_memory
         (fst (handle_add_memory (run empty_store workflow) (Some "s2")
                 (Some "agenda") (Some [])
                 (mkEnv "m7" "2024-05-01T10:00:10.000000")))
         (Some "m7"))
  = run empty_store workflow.
Proof.
  apply (add_then_remove_restores workflow "s2" "agenda" []
           (mkEnv "m7" "2024-05-01T10:00:10.000000")).
  - reflexivity.
  - discriminate.
  - reflexivity.
  - vm_compute. reflexivity.
  - discriminate.
  - vm_compute. reflexivity.
Defined.

(** ** Making and listing sessions *)

(** X10. In a store reached by any sequence of calls, making a session
    under an identifier that is not empty and not a key of [sessions], then
    deleting it, reports that no memory was deleted and gives back the
    store as it was before the two calls. *)
Theorem create_then_delete_restores (rs : list Request) (name : string)
  (env : Env) :
  let st := run empty_store rs in
  PyStr.all_space name = false ->
  new_id env <> EmptyString ->
  mem (new_id env) (sessions st) = false ->
  handle_delete_session (fst (handle_create_session st (Some name) env))
    (Some (new_id env))
  = (st, SessionDeleted
           (mkSession (new_id env) (PyStr.strip name) (now env) 0)
           (new_id env) 0).
Proof.
  intros st Hn Hid Hfresh.
  pose proof (run_wf rs empty_store wf_empty) as Hwf.
  pose proof (run_no_orphans rs empty_store wf_empty no_orphans_empty) as Hno.
  fold st in Hwf, Hno.
  pose proof (handle_create_session_wf st (Some name) env Hwf) as Hwf1.
  destruct (create_session_cases st (Some name) env) as [[Hb _]|[_ Hc]].
  { rewrite (blank_some _ Hn) in Hb. discriminate. }
  simpl in Hc. rewrite Hc in Hwf1 |- *. simpl fst in *.
  set (session := mkSession (new_id env) (PyStr.strip name) (now env) 0) in *.
  set (st1 := mkStore _ _) in *.
  assert (Hg : get (new_id env) (sessions st1) = Some session).
  { unfold st1. simpl. now rewrite get_set, String.eqb_refl. }
  rewrite (delete_session_ok st1 (Some (new_id env)) session Hwf1
             (missing_some _ Hid) Hg).
  simpl. unfold st1. simpl.
  rewrite without_set_fresh by assumption.
  assert (Hnone : get_session_memories st (new_id env) = []).
  { apply no_orphans_absent; assumption. }
  rewrite (get_session_memories_sessions _ (sessions st)), store_eta, Hnone.
  rewrite drop_session_none, store_eta; [reflexivity|].
  intros m Hin E. apply Hno in Hin. unfold session_exists in Hin.
  rewrite E in Hin. congruence.
Qed.

Lemma create_then_delete_restores_witness :
  handle_delete_session
    (fst (handle_create_session (run empty_store workflow) (Some " drafts ")
            (mkEnv "s4" "2024-05-01T10:00:10.000000")))
    (Some "s4")
  = (run empty_store workflow,
     SessionDeleted (mkSession "s4" "drafts" "2024-05-01T10:00:10.000000" 0)
       "s4" 0).
Proof.
  apply (create_then_delete_restores workflow " drafts "
           (mkEnv "s4" "2024-05-01T10:00:10.000000")).
  - reflexivity.
  - discriminate.
  - vm_compute. reflexivity.
Defined.

(** X11. [list_sessions] answers with the sessions in the order of
    [sessions]; after a session is made under an identifier that is not a
    key of [sessions], the list is the list before with the new session,
    its name stripped and its count 0, at the end. *)
Theorem create_then_list_appends (st : Store) (name : string) (env : Env) :
  PyStr.all_space name = false ->
  mem (new_id env) (sessions st) = false ->
  exists before_,
    handle_list_sessions st = (st, SessionList before_)
    /\ snd (handle_list_sessions
              (fst (handle_create_session st (Some name) env)))
       = SessionList
           (before_
            ++ [mkSession (new_id env) (PyStr.strip name) (now env) 0]).
Proof.
  intros Hn Hfresh. exists (values (sessions st)). split; [reflexivity|].
  destruct (create_session_cases st (Some name) env) as [[Hb _]|[_ Hc]].
  { rewrite (blank_some _ Hn) in Hb. discriminate. }
  simpl in Hc. rewrite Hc. unfold handle_list_sessions. simpl.
  rewrite set_fresh by assumption. now rewrite values_app.
Qed.

Lemma create_then_list_appends_witness :
  exists before_,
    handle_list_sessions (run empty_store workflow)
    = (run empty_store workflow, SessionList before_)
    /\ snd (handle_list_sessions
              (fst (handle_create_session (run empty_store workflow)
                      (Some " drafts ")
                      (mkEnv "s4" "2024-05-01T10:00:10.000000"))))
       = SessionList
           (before_
            ++ [mkSession "s4" "drafts" "2024-05-01T10:00:10.000000" 0]).
Proof.
  assert (Hf : mem (new_id (mkEnv "s4" "2024-05-01T10:00:10.000000"))
                   (sessions (run empty_store workflow)) = false)
    by (vm_compute; reflexivity).
  exact (create_then_list_appends (run empty_store workflow) " drafts "
           (mkEnv "s4" "2024-05-01T10:00:10.000000") eq_refl Hf).
Defined.

(** ** Clearing a session *)

(** X12. In a store reached by any sequence of calls, after an existing
    session (identifier not empty) is cleared, [get_memories] on it
    answers with no memory, and clearing it again reports 0 memories
    removed and changes nothing. *)
Theorem clear_then_empty (rs : list Request) (session_id : string)
  (session : Session) :
  let st := run empty_store rs in
  session_id <> EmptyString ->
  get session_id (sessions st) = Some session ->
  let st' := fst (handle_clear_session st (Some session_id)) in
  handle_get_memories st' (Some session_id)
  = (st', MemoryList (s_name session) session_id [])
  /\ handle_clear_session st' (Some session_id)
     = (st', SessionCleared (s_name session) session_id 0).
Proof.
  intros st Hne Hs st'.
  pose proof (run_wf rs empty_store wf_empty) as Hwf. fold st in Hwf.
  pose proof (handle_clear_session_wf st (Some session_id) Hwf) as Hwf'.
  fold st' in Hwf'.
  assert (Hst' : st' = mkStore (set_memory_count session_id 0 (sessions st))
                               (drop_session session_id (memories st))).
  { unfold st'.
    now rewrite (clear_session_ok st (Some session_id) session Hwf
                   (missing_some _ Hne) Hs). }
  assert (Hg : get session_id (sessions st')
               = Some (mkSession (s_id session) (s_name session)
                                 (s_created_at session) 0)).
  { rewrite Hst'. simpl.
    now rewrite get_set_memory_count, String.eqb_refl, Hs. }
  assert (Hnone : get_session_memories st' session_id = []).
  { rewrite Hst'. apply get_session_memories_drop. }
  split.
  - unfold handle_get_memories, session_exists.
    rewrite (missing_some _ Hne). simpl.
    rewrite mem_get, Hg, Hnone. reflexivity.
  - rewrite (clear_session_ok st' (Some session_id) _ Hwf'
               (missing_some _ Hne) Hg).
    simpl. rewrite Hnone. simpl. f_equal.
    rewrite Hst'. simpl. rewrite set_memory_count_twice. f_equal.
    apply drop_session_none. intros m Hin.
    apply In_values_drop_session in Hin. tauto.
Qed.

Lemma clear_then_empty_witness :
  let st' := fst (handle_clear_session (run empty_store workflow)
                    (Some "s1")) in
  handle_get_memories st' (Some "s1")
  = (st', MemoryList "project_ideas" "s1" [])
  /\ handle_clear_session st' (Some "s1")
     = (st', SessionCleared "project_ideas" "s1" 0).
Proof.
  assert (Hs : get "s1" (sessions (run empty_store workflow))
               = Some (mkSession "s1" "project_ideas"
                                 "2024-05-01T10:00:00.000001" 2))
    by (vm_compute; reflexivity).
  exact (clear_then_empty workflow "s1" _ ltac:(discriminate) Hs).
Defined.

(** ** What is stored is stripped *)

Lemma lstrip_head s c r :
  PyStr.lstrip s = String c r -> PyStr.isspace c = false.
Proof.
  induction s as [|a s IH]; simpl; [discriminate|].
  destruct (PyStr.isspace a) eqn:E; [assumption|].
  intros H. inversion H; subst. exact E.
Qed.

Lemma rstrip_cons c s :
  PyStr.rstrip (String c s)
  = match PyStr.rstrip s with
    | EmptyString =>
        if PyStr.isspace c then EmptyString else String c EmptyString
    | r => String c r
    end.
Proof. reflexivity. Qed.

Lemma rstrip_idem s : PyStr.rstrip (PyStr.rstrip s) = PyStr.rstrip s.
Proof.
  induction s as [|c s IH]; [reflexivity|].
  rewrite rstrip_cons. destruct (PyStr.rstrip s) as [|a b] eqn:E.
  - destruct (PyStr.isspace c) eqn:Ec; [reflexivity|].
    rewrite rstrip_cons. simpl. now rewrite Ec.
  - rewrite rstrip_cons, IH. reflexivity.
Qed.

Lemma rstrip_keeps_head c r :
  PyStr.isspace c = false ->
  exists r', PyStr.rstrip (String c r) = String c r'.
Proof.
  intros E. rewrite rstrip_cons.
  destruct (PyStr.rstrip r); [rewrite E|]; eauto.
Qed.

Lemma strip_idem s : PyStr.strip (PyStr.strip s) = PyStr.strip s.
Proof.
  unfold PyStr.strip. destruct (PyStr.lstrip s) as [|c r] eqn:E.
  - reflexivity.
  - pose proof (lstrip_head _ _ _ E) as Hc.
    destruct (rstrip_keeps_head c r Hc) as [r' Hr]. rewrite Hr.
    cbn [PyStr.lstrip]. rewrite Hc, <- Hr. apply rstrip_idem.
Qed.

Lemma strip_is_stripped s :
  PyStr.all_space s = false -> stripped (PyStr.strip s).
Proof.
  intros H. split; [|apply strip_idem].
  intros E. apply (f_equal PyStr.truthy) in E. simpl in E.
  apply strip_empty_iff in E. congruence.
Qed.

Lemma blank_false_stripped a :
  blank a = false -> stripped (PyStr.strip (val a)).
Proof.
  intros H. destruct a as [s|]; [|discriminate]. simpl.
  apply strip_is_stripped. destruct (PyStr.all_space s) eqn:E; [|reflexivity].
  assert (Hb : blank (Some s) = true) by (apply blank_iff; eauto).
  congruence.
Qed.

Lemma In_set_memory_count k n d k' s' :
  In (k', s') (set_memory_count k n d) ->
  exists s, In (k', s) d /\ s_name s' = s_name s.
Proof.
  induction d as [|[k0 s0] d IH]; simpl; [contradiction|].
  destruct (String.eqb k k0); intros [H|H].
  - inversion H; subst. exists s0. auto.
  - eauto.
  - inversion H; subst. eauto.
  - destruct (IH H) as [s [H1 H2]]. eauto.
Qed.

Lemma data_stripped_set_memory_count ss ms k n :
  data_stripped (mkStore ss ms) ->
  data_stripped (mkStore (set_memory_count k n ss) ms).
Proof.
  intros [H1 H2]. split; simpl in *; [|assumption].
  intros k' s' Hin. apply In_set_memory_count in Hin.
  destruct Hin as [s [Hin ->]]. eauto.
Qed.

Lemma data_stripped_update st k :
  data_stripped st -> data_stripped (update_session_memory_count st k).
Proof.
  intros H. unfold update_session_memory_count.
  destruct (mem k (sessions st)); [|assumption].
  apply data_stripped_set_memory_count. now rewrite store_eta.
Qed.

Lemma data_stripped_filter st f g :
  data_stripped st ->
  data_stripped (mkStore (filter f (sessions st)) (filter g (memories st))).
Proof.
  intros [H1 H2]. split; simpl; intros k x Hin; apply filter_In in Hin.
  - apply (H1 k). tauto.
  - apply (H2 k). tauto.
Qed.

Lemma handle_call_tool_data_stripped st name arguments env :
  wf st -> data_stripped st ->
  data_stripped (fst (handle_call_tool st name arguments env)).
Proof.
  intros Hwf Hd. by_tool name.
  - destruct (create_session_cases st (arg_name arguments) env)
      as [[_ ->]|[Hb ->]]; simpl; [assumption|].
    destruct Hd as [H1 H2]. split; simpl; [|assumption].
    intros k s Hin. apply In_set in Hin. destruct Hin as [[_ ->]|Hin].
    + simpl. now apply blank_false_stripped.
    + eauto.
  - assumption.
  - destruct (delete_session_cases st (arg_session_id arguments) Hwf)
      as [[e ->]|[s (_ & _ & ->)]]; simpl; [assumption|].
    now apply data_stripped_filter.
  - destruct (add_memory_cases st (arg_session_id arguments)
                (arg_content arguments) (arg_tags arguments) env)
      as [[e ->]|[s (_ & Hb & _ & H)]]; simpl; [assumption|].
    simpl in H. rewrite H. simpl.
    apply data_stripped_set_memory_count.
    destruct Hd as [H1 H2]. split; simpl; [assumption|].
    intros k m Hin. apply In_set in Hin. destruct Hin as [[_ ->]|Hin].
    + simpl. now apply blank_false_stripped.
    + eauto.
  - now rewrite handle_get_memories_store.
  - destruct (remove_memory_cases st (arg_memory_id arguments) Hwf)
      as [[e ->]|[m (_ & _ & H)]]; simpl; [assumption|].
    simpl in H. rewrite H. simpl.
    apply data_stripped_update.
    destruct Hd as [H1 H2]. split; simpl; [assumption|].
    intros k x Hin. apply filter_In in Hin. apply (H2 k). tauto.
  - destruct (clear_session_cases st (arg_session_id arguments) Hwf)
      as [[e ->]|[s (_ & _ & ->)]]; simpl; [assumption|].
    apply data_stripped_set_memory_count.
    destruct Hd as [H1 H2]. split; simpl; [assumption|].
    intros k x Hin. apply filter_In in Hin. apply (H2 k). tauto.
  - now rewrite handle_search_memories_store.
  - assumption.
Qed.

Lemma run_data_stripped rs :
  forall st, wf st -> data_stripped st -> data_stripped (run st rs).
Proof.
  induction rs as [|[[name arguments] env] rs IH]; intros st Hwf Hd; simpl.
  - assumption.
  - apply IH.
    + now apply handle_call_tool_wf.
    + now apply handle_call_tool_data_stripped.
Qed.

(** X13. In a store reached from the empty one by any sequence of
    calls, every session name and every memory content is not empty and
    has no white space at either end ([strip] leaves it as it is). *)
Theorem stored_text_is_stripped (rs : list Request) :
  let st := run empty_store rs in
  (forall s, In s (values (sessions st)) ->
             s_name s <> EmptyString /\ PyStr.strip (s_name s) = s_name s)
  /\ (forall m, In m (values (memories st)) ->
                m_content m <> EmptyString
                /\ PyStr.strip (m_content m) = m_content m).
Proof.
  intros st.
  assert (H : data_stripped st).
  { apply run_data_stripped; [exact wf_empty|].
    split; intros k x []. }
  destruct H as [H1 H2]. split.
  - intros s Hin. apply In_values in Hin. destruct Hin as [k Hin].
    exact (H1 k s Hin).
  - intros m Hin. apply In_values in Hin. destruct Hin as [k Hin].
    exact (H2 k m Hin).
Qed.

Lemma stored_text_is_stripped_witness :
  In (mkSession "s2" "meeting_notes" "2024-05-01T10:00:00.000002" 0)
     (values (sessions (run empty_store workflow)))
  /\ PyStr.strip "meeting_notes" = "meeting_notes".
Proof.
  assert (Hin : In (mkSession "s2" "meeting_notes"
                              "2024-05-01T10:00:00.000002" 0)
                   (values (sessions (run empty_store workflow))))
    by (vm_compute; tauto).
  split; [exact Hin|].
  exact (proj2 (proj1 (stored_text_is_stripped workflow) _ Hin)).
Defined.

(** ** Searching *)

(** X14. [search_memories] first checks the query and then the session:
    a query that is absent, empty or white space only is reported as such
    whatever [session_id] and [tags] are, and only then is a [session_id]
    that is not empty and names no session reported. *)
Theorem search_memories_check_order (st : Store)
  (query session_id : option string) (tags : option (list string)) :
  ((query = None
    \/ exists q, query = Some q /\ PyStr.all_space q = true) ->
   handle_search_memories st query session_id tags
   = (st, Error SearchMemories EmptyQuery))
  /\ (forall q sid,
        query = Some q -> PyStr.all_space q = false ->
        session_id = Some sid -> sid <> EmptyString ->
        session_exists st sid = false ->
        handle_search_memories st query session_id tags
        = (st, Error SearchMemories (SessionNotFound sid))).
Proof.
  split.
  - intros H. apply blank_iff in H. unfold handle_search_memories.
    now rewrite H.
  - intros q sid -> Hq -> Hne He. unfold handle_search_memories.
    rewrite (blank_some _ Hq). unfold search_universe.
    rewrite (missing_some _ Hne). simpl. now rewrite He.
Qed.

Lemma search_memories_check_order_witness :
  handle_search_memories (run empty_store workflow) (Some "  ")
    (Some "s9") (Some ["app"])
  = (run empty_store workflow, Error SearchMemories EmptyQuery)
  /\ handle_search_memories (run empty_store workflow) (Some "app")
       (Some "s9") (Some ["app"])
     = (run empty_store workflow,
        Error SearchMemories (SessionNotFound "s9")).
Proof.
  split.
  - apply (proj1 (search_memories_check_order (run empty_store workflow)
                    (Some "  ") (Some "s9") (Some ["app"]))).
    right. exists "  ". split; reflexivity.
  - refine (proj2 (search_memories_check_order (run empty_store workflow)
                     (Some "app") (Some "s9") (Some ["app"]))
              "app" "s9" eq_refl eq_refl eq_refl _ _).
    + discriminate.
    + vm_compute. reflexivity.
Defined.

Lemma search_hits_of_plain st query session_id tags u scope :
  blank (Some query) = false ->
  has_backslash query = false ->
  search_universe st session_id = inr (u, scope) ->
  exists hits,
    handle_search_memories st (Some query) session_id tags
    = (st, SearchResults query scope (tags_or_default tags) hits)
    /\ map hit_memory hits
       = sort_desc m_created_at
           (filter (matches (PyStr.lower (PyStr.strip query))
                            (tags_or_default tags)) u)
    /\ forall hit, In hit hits ->
                   hit_session_name hit = session_name_of st (hit_memory hit).
Proof.
  intros Hb Hq Hu.
  destruct (parse_template_plain ("**" ++ query ++ "**")%string)
    as [t [Ht He]].
  { rewrite !has_backslash_app, Hq. reflexivity. }
  unfold handle_search_memories. rewrite Hb, Hu. simpl val.
  rewrite (hits_of_compiled _ _ _ t _ Ht).
  eexists. split; [reflexivity|]. split.
  - rewrite map_map. simpl. apply map_id.
  - intros hit Hin. apply in_map_iff in Hin.
    destruct Hin as [m [<- _]]. reflexivity.
Qed.

(** X15. A search with a query that is more than white space and holds
    no backslash, limited to an existing session (identifier not empty),
    answers under the name of that session with memories of that session
    only, each labelled with the session's name, newest first. *)
Theorem search_in_session (st : Store) (query session_id : string)
  (tags : option (list string)) (session : Session) :
  PyStr.all_space query = false ->
  has_backslash query = false ->
  session_id <> EmptyString ->
  get session_id (sessions st) = Some session ->
  exists hits,
    handle_search_memories st (Some query) (Some session_id) tags
    = (st, SearchResults query (Some (s_name session))
             (tags_or_default tags) hits)
    /\ (forall hit, In hit hits ->
                    m_session_id (hit_memory hit) = session_id
                    /\ hit_session_name hit = s_name session)
    /\ StronglySorted
         (fun a b => String.leb (m_created_at b) (m_created_at a) = true)
         (map hit_memory hits).
Proof.
  intros Hq Hb Hne Hs.
  assert (Hu : search_universe st (Some session_id)
               = inr (get_session_memories st session_id,
                      Some (s_name session))).
  { unfold search_universe, session_exists.
    rewrite (missing_some _ Hne). simpl. now rewrite mem_get, Hs. }
  destruct (search_hits_of_plain st query (Some session_id) tags _ _
              (blank_some _ Hq) Hb Hu) as [hits (Hr & Hm & Hn)].
  exists hits. split; [exact Hr|]. split.
  - intros hit Hin.
    assert (Hin' : In (hit_memory hit) (map hit_memory hits))
      by now apply in_map.
    rewrite Hm in Hin'.
    apply (Permutation_in _ (sort_desc_perm m_created_at _)) in Hin'.
    apply filter_In in Hin'. destruct Hin' as [Hin' _].
    apply filter_In in Hin'. destruct Hin' as [_ E].
    apply String.eqb_eq in E. split; [exact E|].
    rewrite (Hn hit Hin). unfold session_name_of. now rewrite E, Hs.
  - rewrite Hm. apply (sort_desc_sorted m_created_at).
Qed.

Lemma search_in_session_witness :
  exists hits,
    handle_search_memories (run empty_store workflow) (Some "APP")
      (Some "s1") None
    = (run empty_store workflow,
       SearchResults "APP" (Some "project_ideas") [] hits)
    /\ (forall hit, In hit hits ->
                    m_session_id (hit_memory hit) = "s1"
                    /\ hit_session_name hit = "project_ideas").
Proof.
  assert (Hs : get "s1" (sessions (run empty_store workflow))
               = Some (mkSession "s1" "project_ideas"
                                 "2024-05-01T10:00:00.000001" 2))
    by (vm_compute; reflexivity).
  destruct (search_in_session (run empty_store workflow) "APP" "s1" None _
              eq_refl eq_refl ltac:(discriminate) Hs)
    as [hits (H1 & H2 & _)].
  exists hits. split; [exact H1 | exact H2].
Defined.

(** X16. In a store reached by any sequence of calls, a search over all
    sessions, with a query that is more than white space and holds no
    backslash, labels every memory it returns with the name of the session
    the memory belongs to, a session that is in the store. *)
Theorem search_all_names_sessions (rs : list Request) (query : string)
  (tags : option (list string)) :
  let st := run empty_store rs in
  PyStr.all_space query = false ->
  has_backslash query = false ->
  exists hits,
    handle_search_memories st (Some query) None tags
    = (st, SearchResults query None (tags_or_default tags) hits)
    /\ forall hit, In hit hits ->
         exists session,
           get (m_session_id (hit_memory hit)) (sessions st) = Some session
           /\ hit_session_name hit = s_name session.
Proof.
  intros st Hq Hb.
  pose proof (run_no_orphans rs empty_store wf_empty no_orphans_empty) as Hno.
  fold st in Hno.
  destruct (search_hits_of_plain st query None tags _ _
              (blank_some _ Hq) Hb eq_refl) as [hits (Hr & Hm & Hn)].
  exists hits. split; [exact Hr|].
  intros hit Hin.
  assert (Hin' : In (hit_memory hit) (map hit_memory hits))
    by now apply in_map.
  rewrite Hm in Hin'.
  apply (Permutation_in _ (sort_desc_perm m_created_at _)) in Hin'.
  apply filter_In in Hin'. destruct Hin' as [Hin' _].
  apply Hno in Hin'. apply session_exists_get in Hin'.
  destruct Hin' as [session Hs]. exists session. split; [exact Hs|].
  rewrite (Hn hit Hin). unfold session_name_of. now rewrite Hs.
Qed.

Lemma search_all_names_sessions_witness :
  exists hits,
    handle_search_memories (run empty_store workflow) (Some "app") None None
    = (run empty_store workflow, SearchResults "app" None [] hits)
    /\ forall hit, In hit hits ->
         exists session,
           get (m_session_id (hit_memory hit))
               (sessions (run empty_store workflow)) = Some session
           /\ hit_session_name hit = s_name session.
Proof.
  exact (search_all_names_sessions workflow "app" None eq_refl eq_refl).
Defined.




(** ** The blocks returned *)

Lemma length_enumerate1 {A} (l : list A) :
  List.length (enumerate1 l) = List.length l.
Proof.
  unfold enumerate1. rewrite length_combine, length_seq. apply Nat.min_id.
Qed.

(** X18. [get_memories] on an existing session (identifier not empty)
    returns a heading block followed by one block for each memory of the
    session: one block more than the session has memories. *)
Theorem get_memories_block_count (st : Store) (session_id : string)
  (session : Session) (env : Env) :
  session_id <> EmptyString ->
  get session_id (sessions st) = Some session ->
  exists blocks,
    call_tool st "get_memories"
      (mkArguments None (Some session_id) None None None None)
      env
    = (st, Some blocks)
    /\ List.length blocks
       = S (List.length
              (filter (fun m => String.eqb (m_session_id m) session_id)
                      (values (memories st)))).
Proof.
  intros Hne Hs.
  assert (Hr : handle_get_memories st (Some session_id)
               = (st, MemoryList (s_name session) session_id
                        (sort_desc m_created_at
                           (get_session_memories st session_id)))).
  { unfold handle_get_memories, session_exists.
    rewrite (missing_some _ Hne). simpl. now rewrite mem_get, Hs. }
  unfold call_tool, handle_call_tool. simpl String.eqb. cbv iota.
  simpl arg_session_id. rewrite Hr.
  pose proof (Permutation_length
                (sort_desc_perm m_created_at
                   (get_session_memories st session_id))) as Hl.
  unfold get_session_memories in Hl at 2. rewrite <- Hl.
  destruct (sort_desc m_created_at (get_session_memories st session_id))
    as [|m l]; unfold render.
  - eexists. split; reflexivity.
  - eexists. split; [reflexivity|].
    cbn [List.length]. now rewrite length_map, length_enumerate1.
Qed.

Lemma get_memories_block_count_witness :
  exists blocks,
    call_tool (run empty_store workflow) "get_memories"
      (mkArguments None (Some "s1") None None None None)
      (mkEnv "u9" "2024-05-01T10:00:10.000000")
    = (run empty_store workflow, Some blocks)
    /\ List.length blocks = 3.
Proof.
  assert (Hs : get "s1" (sessions (run empty_store workflow))
               = Some (mkSession "s1" "project_ideas"
                                 "2024-05-01T10:00:00.000001" 2))
    by (vm_compute; reflexivity).
  destruct (get_memories_block_count (run empty_store workflow) "s1" _
              (mkEnv "u9" "2024-05-01T10:00:10.000000")
              ltac:(discriminate) Hs) as [blocks [H1 H2]].
  exists blocks. split; [exact H1|].
  rewrite H2. vm_compute. reflexivity.
Defined.

Lemma string_app_assoc a b c :
  ((a ++ b) ++ c)%string = (a ++ (b ++ c))%string.
Proof. induction a as [|x a IH]; simpl; [reflexivity | now rewrite IH]. Qed.

Lemma string_length_app a b :
  String.length (a ++ b) = String.length a + String.length b.
Proof. induction a as [|x a IH]; simpl; [reflexivity | now rewrite IH]. Qed.

Lemma take_all n : forall s, String.length s <= n -> Re.take n s = s.
Proof.
  unfold Re.take. induction n as [|n IH]; intros [|c s] H; simpl in *;
    try reflexivity; try lia.
  rewrite IH by lia. reflexivity.
Qed.

Lemma take_prefix n : forall s,
  n <= String.length s ->
  String.length (Re.take n s) = n
  /\ exists rest, s = (Re.take n s ++ rest)%string.
Proof.
  unfold Re.take. induction n as [|n IH]; intros s H.
  - destruct s; simpl; split; eauto.
  - destruct s as [|c s]; simpl in *; [lia|].
    destruct (IH s ltac:(lia)) as [Hl [rest Hr]]. split; [lia|].
    exists rest. now rewrite <- Hr.
Qed.

Lemma cat_cons x l : cat (x :: l) = (x ++ cat l)%string.
Proof.
  unfold cat. destruct l as [|y l]; simpl; [|reflexivity].
  now rewrite string_app_nil_r.
Qed.

Lemma cat_app l1 l2 : cat (l1 ++ l2) = (cat l1 ++ cat l2)%string.
Proof.
  induction l1 as [|x l1 IH]; [reflexivity|].
  change ((x :: l1) ++ l2) with (x :: (l1 ++ l2)).
  now rewrite !cat_cons, IH, string_app_assoc.
Qed.

(** X19. The removal message shows the content of the removed memory
    whole when it has at most 100 characters, and otherwise its first 100
    characters followed by three dots: 103 characters. *)
Theorem removed_content_preview (memory_id session_name session_id
  content : string) :
  render (MemoryRemoved memory_id session_name session_id content)
  = Some [cat ["# Memory Removed"; nl; nl;
               "**Memory ID:** "; memory_id; nl;
               "**Session:** "; session_name; " ("; session_id; ")"; nl;
               "**Content:** "; content_preview content; nl;
               "**Status:** Successfully removed"]]
  /\ (String.length content <= 100 -> content_preview content = content)
  /\ (100 < String.length content ->
      String.length (content_preview content) = 103
      /\ exists rest,
           content = (Re.take 100 content ++ rest)%string
           /\ content_preview content = (Re.take 100 content ++ "...")%string).
Proof.
  split; [|split].
  - unfold render. do 2 f_equal.
    change (cat (["# Memory Removed"; nl; nl; "**Memory ID:** "; memory_id;
                  nl; "**Session:** "; session_name; " ("; session_id; ")";
                  nl; "**Content:** "]
                 ++ [Re.take 100 content;
                     if 100 <? String.length content then "..."
                     else EmptyString]
                 ++ [nl; "**Status:** Successfully removed"])
            = cat (["# Memory Removed"; nl; nl; "**Memory ID:** "; memory_id;
                    nl; "**Session:** "; session_name; " ("; session_id; ")";
                    nl; "**Content:** "]
                   ++ [content_preview content]
                   ++ [nl; "**Status:** Successfully removed"])).
    rewrite !cat_app. reflexivity.
  - intros H. unfold content_preview.
    replace (100 <? String.length content) with false
      by (symmetry; apply Nat.ltb_ge; exact H).
    rewrite take_all by assumption. apply string_app_nil_r.
  - intros H. unfold content_preview.
    replace (100 <? String.length content) with true
      by (symmetry; apply Nat.ltb_lt; exact H).
    destruct (take_prefix 100 content ltac:(lia)) as [Hl [rest Hr]].
    split.
    + rewrite string_length_app, Hl. reflexivity.
    + exists rest. split; [exact Hr | reflexivity].
Qed.

Lemma removed_content_preview_witness :
  content_preview "Sketch the app icon" = "Sketch the app icon".
Proof.
  apply (proj1 (proj2 (removed_content_preview "m6" "project_ideas" "s1"
                         "Sketch the app icon"))).
  vm_compute. repeat constructor.
Defined.

(** ** Identifier checks *)

(** X20. The handlers that take an identifier answer an absent or empty
    one with "is required" and one that names nothing with "does not
    exist", each under its own heading and without touching the store:
    [delete_session], [get_memories] and [clear_session] for a session,
    [remove_memory] for a memory. *)
Theorem identifier_checks (st : Store) (a : option string) :
  ((a = None \/ a = Some EmptyString) ->
   handle_delete_session st a = (st, Error DeleteSession EmptySessionId)
   /\ handle_get_memories st a = (st, Error GetMemories EmptySessionId)
   /\ handle_clear_session st a = (st, Error ClearSession EmptySessionId)
   /\ handle_remove_memory st a = (st, Error RemoveMemory EmptyId))
  /\ (forall k, a = Some k -> k <> EmptyString ->
        (In k (keys (sessions st))
         \/ (handle_delete_session st a
             = (st, Error DeleteSession (SessionNotFound k))
             /\ handle_get_memories st a
                = (st, Error GetMemories (SessionNotFound k))
             /\ handle_clear_session st a
                = (st, Error ClearSession (SessionNotFound k))))
        /\ (In k (keys (memories st))
            \/ handle_remove_memory st a
               = (st, Error RemoveMemory (MemoryNotFound k)))).
Proof.
  split.
  - intros H. apply missing_iff in H.
    unfold handle_delete_session, handle_get_memories, handle_clear_session,
      handle_remove_memory.
    rewrite H. auto.
  - intros k -> Hne. pose proof (missing_some _ Hne) as Hm. split.
    + destruct (mem k (sessions st)) eqn:E.
      * left. now apply mem_In.
      * right.
        unfold handle_delete_session, handle_get_memories,
          handle_clear_session, session_exists.
        rewrite Hm. simpl. rewrite E. auto.
    + destruct (mem k (memories st)) eqn:E.
      * left. now apply mem_In.
      * right. unfold handle_remove_memory. rewrite Hm. simpl.
        now rewrite E.
Qed.

Lemma identifier_checks_witness :
  handle_remove_memory (run empty_store workflow) (Some EmptyString)
  = (run empty_store workflow, Error RemoveMemory EmptyId).
Proof.
  apply (proj1 (identifier_checks (run empty_store workflow)
                  (Some EmptyString))).
  now right.
Defined.

(** ** The count helper *)

(** X21. [update_session_memory_count] never touches [memories] nor the
    keys of [sessions]; it does nothing for an identifier that names no
    session; for one that does it sets the count to the number of memories
    that refer to the identifier and leaves the other fields; and calling
    it twice is calling it once. *)
Theorem update_session_memory_count_spec (st : Store) (k : string) :
  memories (update_session_memory_count st k) = memories st
  /\ keys (sessions (update_session_memory_count st k)) = keys (sessions st)
  /\ (get k (sessions st) = None -> update_session_memory_count st k = st)
  /\ (forall s, get k (sessions st) = Some s ->
        get k (sessions (update_session_memory_count st k))
        = Some (mkSession (s_id s) (s_name s) (s_created_at s)
                  (List.length
                     (filter (fun m => String.eqb (m_session_id m) k)
                             (values (memories st))))))
  /\ update_session_memory_count (update_session_memory_count st k) k
     = update_session_memory_count st k.
Proof.
  unfold update_session_memory_count. rewrite mem_get.
  destruct (get k (sessions st)) as [s|] eqn:Hs; simpl.
  - repeat split.
    + apply keys_set_memory_count.
    + discriminate.
    + intros s' H. inversion H; subst s'.
      now rewrite get_set_memory_count, String.eqb_refl, Hs.
    + rewrite mem_set_memory_count, mem_get, Hs.
      now rewrite set_memory_count_twice.
  - rewrite Hs. repeat split; auto.
    + discriminate.
    + now rewrite mem_get, Hs.
Qed.

Lemma update_session_memory_count_spec_witness :
  update_session_memory_count (run empty_store workflow) "s9"
  = run empty_store workflow.
Proof.
  apply (proj1 (proj2 (proj2 (update_session_memory_count_spec
                                (run empty_store workflow) "s9")))).
  vm_compute. reflexivity.
Defined.

(** ** The counts add up *)

Lemma list_sum_zero {A} (l : list A) : list_sum (map (fun _ => 0) l) = 0.
Proof. induction l; simpl; auto. Qed.

Lemma list_sum_map_add {A} (f g : A -> nat) l :
  list_sum (map (fun x => f x + g x) l)
  = list_sum (map f l) + list_sum (map g l).
Proof. induction l as [|x l IH]; simpl; [reflexivity | rewrite IH; lia]. Qed.

Lemma indicator_sum x ks :
  NoDup ks ->
  list_sum (map (fun k => if String.eqb x k then 1 else 0) ks)
  = if in_dec string_dec x ks then 1 else 0.
Proof.
  induction 1 as [|k ks Hnotin Hnd IH]; simpl; [reflexivity|].
  rewrite IH. destruct (String.eqb_spec x k) as [->|Hne].
  - destruct (string_dec k k); [|congruence].
    destruct (in_dec string_dec k ks); [contradiction | reflexivity].
  - destruct (string_dec k x); [congruence|].
    destruct (in_dec string_dec x ks); reflexivity.
Qed.

Lemma counts_partition (l : list Memory) ks :
  NoDup ks ->
  (forall m, In m l -> In (m_session_id m) ks) ->
  list_sum
    (map (fun k =>
            List.length
              (filter (fun m => String.eqb (m_session_id m) k) l)) ks)
  = List.length l.
Proof.
  intros Hnd. induction l as [|m l IH]; intros Hin.
  - simpl. apply list_sum_zero.
  - simpl List.length. rewrite <- IH by (intros x Hx; apply Hin; now right).
    rewrite (map_ext _
               (fun k => (if String.eqb (m_session_id m) k then 1 else 0)
                         + List.length
                             (filter (fun x => String.eqb (m_session_id x) k)
                                     l))).
    + rewrite list_sum_map_add, indicator_sum by assumption.
      destruct (in_dec string_dec (m_session_id m) ks) as [|Hn];
        [reflexivity|].
      exfalso. apply Hn, Hin. now left.
    + intros k. simpl. now destruct (String.eqb (m_session_id m) k).
Qed.

Lemma map_values_keys {V B} (f : V -> B) (g : string -> B) (d : dict V) :
  (forall k v, In (k, v) d -> f v = g k) ->
  map f (values d) = map g (keys d).
Proof.
  induction d as [|[k v] d IH]; simpl; intros H; [reflexivity|].
  rewrite (H k v) by now left. f_equal. apply IH.
  intros k' v' Hin. apply H. now right.
Qed.

(** X22. In a store reached by a sequence of calls that were handed
    identifiers not in use, the counts of the sessions add up to the
    number of memories in the store: every memory is counted once. *)
Theorem counts_add_up (rs : list Request) :
  fresh_run empty_store rs = true ->
  let st := run empty_store rs in
  list_sum (map s_memory_count (values (sessions st)))
  = List.length (memories st).
Proof.
  intros Hf st.
  pose proof (run_wf rs empty_store wf_empty) as Hwf.
  pose proof (run_no_orphans rs empty_store wf_empty no_orphans_empty) as Hno.
  pose proof (run_counts rs empty_store wf_empty no_orphans_empty
                counts_ok_empty Hf) as Hc.
  fold st in Hwf, Hno, Hc.
  rewrite (map_values_keys s_memory_count
             (fun k => List.length (get_session_memories st k))).
  - unfold get_session_memories.
    rewrite counts_partition.
    + unfold values. apply length_map.
    + apply Hwf.
    + intros m Hin. apply mem_In. now apply Hno.
  - intros k s Hin. apply Hc. apply In_get; [apply Hwf | assumption].
Qed.

Lemma counts_add_up_witness :
  list_sum (map s_memory_count
              (values (sessions (run empty_store workflow))))
  = List.length (memories (run empty_store workflow)).
Proof.
  apply (counts_add_up workflow). reflexivity.
Defined.

(** ** The tag filter *)

(** X23. The tag filter of the search asks for any one of its tags:
    a memory that passes a filter with at least one tag also passes every
    filter that holds those tags among others, in any order, and passes
    the search without a filter. *)
Theorem tag_filter_any_match (query_lower : string)
  (tags_filter wider : list string) (memory : Memory) :
  tags_filter <> [] ->
  (forall tag, In tag tags_filter -> In tag wider) ->
  matches query_lower tags_filter memory = true ->
  matches query_lower wider memory = true
  /\ matches query_lower [] memory = true.
Proof.
  intros Hne Hincl H. apply matches_iff in H. destruct H as [Hc Ht].
  destruct (Ht Hne) as [tag [H1 H2]]. split; apply matches_iff.
  - split; [exact Hc|]. intros _. exists tag. auto.
  - split; [exact Hc|]. congruence.
Qed.

Lemma tag_filter_any_match_witness :
  matches "app" ["web"; "tutorial"; "cli"]
    (mkMemory "m1" "s1"
       "Build a drawing tutorial app with step-by-step guides"
       "2024-05-01T10:00:01.000000" ["app"; "tutorial"; "drawing"]) = true.
Proof.
  apply (tag_filter_any_match "app" ["tutorial"] ["web"; "tutorial"; "cli"]).
  - discriminate.
  - intros tag [<-|[]]. simpl. tauto.
  - reflexivity.
Defined.
